(** * Demo session REST interface: a shallow embedding

    This development embeds [server/web/rest/demos.py] (the REST handlers
    for demo sessions, login/logout and the admin data view) together
    with the application-level [exception_handler] of
    [server/web/__init__.py], and proves properties of the handlers.

    The handlers are stateful and raise exceptions, so they are written
    in a small state-and-exception monad over a [World] (the session
    store, the clock, the per-request [g] object, the log of calls that
    reached the ERP back end, the worker pools still alive).

    The modules [server.exceptions], [server.web.utils],
    [server.utils], [server.services.demos] and [server.services.users]
    are imported by the handlers but their text is not part of the
    sources at hand; each of their functions used below is introduced by
    a comment starting with "Modelled from the spec:". *)

From Stdlib Require Import ZArith.
From stdpp Require Import gmap strings list fin_maps.

Set Warnings "-register-all,-clear-no-such-hyp".

Local Open Scope string_scope.
Local Open Scope Z_scope.

(* ===================================================================== *)
(** ** Exceptions                                                        *)
(* ===================================================================== *)

(** Modelled from the spec: [server.exceptions] is missing.  The error
    taxonomy of section 7 gives the kinds; every kind is an
    [APIException] (the handlers import [APIException], [TokenException]
    and [ResourceDoesNotExistException], the tests
    [UnprocessableEntityException] and [AuthenticationException]). *)
Inductive api_kind : Type :=
  | APIError
  | ResourceNotFound
  | UnprocessableEntity
  | AuthenticationFailed
  | TokenInvalid
  | AggregationTimeout.

(** A raised exception: an [APIException] (or one of its subclasses,
    told apart by [kind]), werkzeug's [BadRequest] (the HTTP exception
    with code 400, which Flask raises when a JSON body does not parse),
    or any other Python exception, of which only the class name and the
    message matter here. *)
Inductive exn : Type :=
  | APIException (kind : api_kind) (message : string) (internal_details : string)
  | PythonError (cls : string) (message : string)
  | BadRequest (description : string).

#[global] Instance api_kind_eq_dec : EqDecision api_kind.
Proof. solve_decision. Defined.
#[global] Instance exn_eq_dec : EqDecision exn.
Proof. solve_decision. Defined.

(** [isinstance(e, APIException)] *)
Definition isinstance_APIException (e : exn) : bool :=
  match e with
  | APIException _ _ _ => true
  | PythonError _ _ => false
  | BadRequest _ => false
  end.

(** Is [e] an HTTP exception with code 400? *)
Definition isinstance_BadRequest (e : exn) : bool :=
  match e with
  | BadRequest _ => true
  | _ => false
  end.

(** [isinstance(e, (TokenException, ResourceDoesNotExistException))] *)
Definition isinstance_Token_or_NotFound (e : exn) : bool :=
  match e with
  | APIException TokenInvalid _ _ => true
  | APIException ResourceNotFound _ _ => true
  | _ => false
  end.

(** [str(e)] / [unicode(e)]: the message of the exception. *)
Definition str_exn (e : exn) : string :=
  match e with
  | APIException _ m _ => m
  | PythonError _ m => m
  | BadRequest m => m
  end.

Definition kind_of (e : exn) : option api_kind :=
  match e with
  | APIException k _ _ => Some k
  | PythonError _ _ => None
  | BadRequest _ => None
  end.

(* ===================================================================== *)
(** ** JSON values                                                       *)
(* ===================================================================== *)

(** What [json.loads] and [request.get_json] deliver.  A Python [dict]
    read from JSON is kept as its list of bindings in textual order; a
    later binding of a key shadows an earlier one. *)
Inductive json : Type :=
  | JNull
  | JBool (b : bool)
  | JNum (n : Z)
  | JStr (s : string)
  | JArr (items : list json)
  | JObj (bindings : list (string * json)).

Fixpoint assoc_last (k : string) (kvs : list (string * json)) : option json :=
  match kvs with
  | [] => None
  | (k', v) :: rest =>
      match assoc_last k rest with
      | Some v' => Some v'
      | None => if decide (k' = k) then Some v else None
      end
  end.

(** The Python value of a JSON value held in a variable: JSON [null] is
    [None]. *)
Definition py_of_json (v : json) : option json :=
  match v with
  | JNull => None
  | _ => Some v
  end.

(** The name of the Python 2 type of a decoded JSON value. *)
Definition py_type_name (v : json) : string :=
  match v with
  | JNull => "NoneType"
  | JBool _ => "bool"
  | JNum _ => "int"
  | JStr _ => "unicode"
  | JArr _ => "list"
  | JObj _ => "dict"
  end.

(** [data.get(key)]: defined on a [dict] only; on [None] and on every
    other value the attribute [get] does not exist. *)
Definition py_get (data : option json) (key : string) : exn + option json :=
  match data with
  | Some (JObj kvs) =>
      inr (match assoc_last key kvs with
           | Some v => py_of_json v
           | None => None
           end)
  | Some v =>
      inl (PythonError "AttributeError"
             ("'" +:+ py_type_name v +:+ "' object has no attribute 'get'"))
  | None => inl (PythonError "AttributeError" "'NoneType' object has no attribute 'get'")
  end.

(* ===================================================================== *)
(** ** Data model                                                        *)
(* ===================================================================== *)

Record Role : Type := mkRole {
  role_id : Z;
  role_name : string;
  role_created : Z;
  role_modified : Z
}.

Record User : Type := mkUser {
  user_id : Z;
  user_demoId : Z;
  username : string;
  email : string;
  roles : list Role
}.

Record Demo : Type := mkDemo {
  demo_id : Z;
  demo_guid : string;
  demo_name : string;
  demo_createdAt : Z;
  users : list User
}.

(** The dictionary returned by [user_service.login], to which
    [demo_login] adds the key ['exp']. *)
Record auth_data : Type := mkAuth {
  auth_guid : string;
  auth_user_id : Z;
  loopback_token : string;
  exp : option Z
}.

#[global] Instance auth_data_eq_dec : EqDecision auth_data.
Proof. solve_decision. Defined.

(** A web token as it travels in a header, a cookie or a URL: either a
    signed encoding of an [auth_data], or any other string. *)
Inductive token : Type :=
  | Jwt (payload : auth_data) (signature : N)
  | Opaque (s : string).

#[global] Instance token_eq_dec : EqDecision token.
Proof. solve_decision. Defined.

(** The three ERP read services the admin view calls. *)
Inductive service : Type :=
  | get_shipments
  | get_distribution_centers
  | get_retailers.

#[global] Instance service_eq_dec : EqDecision service.
Proof. solve_decision. Defined.

(** What one call to the back end does: it answers after [delay] time
    units, with a serialized result or with an exception. *)
Record reply : Type := mkReply {
  delay : nat;
  outcome : exn + string
}.

(** Calls that change something on the ERP side. *)
Inductive erp_call : Type :=
  | ProvisionSeedUser (guid : string)
  | RetractDemo (guid : string)
  | AuthenticateUser (guid : string) (uid : Z)
  | RevokeCredential (credential : string).

#[global] Instance erp_call_eq_dec : EqDecision erp_call.
Proof. solve_decision. Defined.

(** The surroundings of the controller: the process-wide signing secret
    and keyed signature of the token codec, the credential the session
    store itself uses on the back end, [json.loads], and the behaviour
    of the external ERP back end. *)
Record Env : Type := mkEnv {
  secret : string;
  admin_token : string;
  sign : string -> auth_data -> N;
  json_loads : string -> option json;
  erp_read : service -> string -> reply;
  erp_provision : string -> option exn;
  erp_authenticate : string -> Z -> exn + string;
  erp_revoke : string -> option exn
}.

(** The body of a request, as far as JSON goes: the request does not
    announce JSON; or it does and its body parses to a value; or it does
    and its body (an empty one included) does not parse. *)
Inductive json_body : Type :=
  | NoJson
  | Parsed (v : json)
  | Unparseable.

(** The incoming request: the token found in the [Authorization] header
    or the [auth_token] cookie, and its body. *)
Record Request : Type := mkRequestBody {
  req_token : option token;
  req_body : json_body
}.

(** A request whose body parses, given by the parsed value, or that has
    no JSON body ([None]). *)
Definition mkRequest (t : option token) (data : option json) : Request :=
  mkRequestBody t match data with
                  | Some v => Parsed v
                  | None => NoJson
                  end.

(** The parsed JSON body of the request, [None] when there is none. *)
Definition req_json (req : Request) : option json :=
  match req_body req with
  | Parsed v => Some v
  | NoJson | Unparseable => None
  end.

(** What [request.get_json()] returns, when it returns: the parsed body,
    [None] when the request does not announce JSON.  (When the body
    does not parse it raises instead, see [request_get_json].) *)
Definition get_json (req : Request) : option json := req_json req.

(** Flask's [g.auth]: the attribute is unset, or holds [None], or holds
    the decoded token. *)
Inductive g_attr : Type :=
  | Unset
  | PyNone
  | AuthDict (d : auth_data).

Record World : Type := mkWorld {
  demos : gmap string Demo;
  issued : gset string;
  next_id : Z;
  clock : Z;
  g_auth : g_attr;
  erp_log : list erp_call;
  live_pools : nat
}.

Definition init_world : World :=
  {| demos := ∅; issued := ∅; next_id := 1; clock := 0;
     g_auth := Unset; erp_log := []; live_pools := 0 |}.

(* ===================================================================== *)
(** ** The monad of handlers: state and exceptions                       *)
(* ===================================================================== *)

(** A computation runs in a world and ends with a value or a raised
    exception, in the world as it is at that moment (nothing is rolled
    back when an exception is raised). *)
Definition M (A : Type) : Type := World -> (exn + A) * World.

#[global] Instance M_ret : MRet M := fun A (a : A) w => (inr a, w).

#[global] Instance M_bind : MBind M := fun A B (k : A -> M B) (m : M A) w =>
  match m w with
  | (inl e, w') => (inl e, w')
  | (inr a, w') => k a w'
  end.

Definition raise {A : Type} (e : exn) : M A := fun w => (inl e, w).

(** [try: m  except <classes selected by catches> as e: h e] *)
Definition try_except {A : Type} (m : M A) (catches : exn -> bool) (h : exn -> M A) : M A :=
  fun w =>
    match m w with
    | (inl e, w') => if catches e then h e w' else (inl e, w')
    | (inr a, w') => (inr a, w')
    end.

Definition get_world : M World := fun w => (inr w, w).

Definition modify (f : World -> World) : M unit := fun w => (inr tt, f w).

Definition lift {A : Type} (r : exn + A) : M A := fun w => (r, w).

(** World updates, one per mutable component. *)
Definition set_demos (f : gmap string Demo -> gmap string Demo) (w : World) : World :=
  {| demos := f (demos w); issued := issued w; next_id := next_id w; clock := clock w;
     g_auth := g_auth w; erp_log := erp_log w; live_pools := live_pools w |}.

Definition set_issued (f : gset string -> gset string) (w : World) : World :=
  {| demos := demos w; issued := f (issued w); next_id := next_id w; clock := clock w;
     g_auth := g_auth w; erp_log := erp_log w; live_pools := live_pools w |}.

Definition set_next_id (f : Z -> Z) (w : World) : World :=
  {| demos := demos w; issued := issued w; next_id := f (next_id w); clock := clock w;
     g_auth := g_auth w; erp_log := erp_log w; live_pools := live_pools w |}.

Definition set_clock (f : Z -> Z) (w : World) : World :=
  {| demos := demos w; issued := issued w; next_id := next_id w; clock := f (clock w);
     g_auth := g_auth w; erp_log := erp_log w; live_pools := live_pools w |}.

Definition set_g_auth (a : g_attr) (w : World) : World :=
  {| demos := demos w; issued := issued w; next_id := next_id w; clock := clock w;
     g_auth := a; erp_log := erp_log w; live_pools := live_pools w |}.

Definition log_erp (c : erp_call) (w : World) : World :=
  {| demos := demos w; issued := issued w; next_id := next_id w; clock := clock w;
     g_auth := g_auth w; erp_log := erp_log w ++ [c]; live_pools := live_pools w |}.

Definition set_live_pools (f : nat -> nat) (w : World) : World :=
  {| demos := demos w; issued := issued w; next_id := next_id w; clock := clock w;
     g_auth := g_auth w; erp_log := erp_log w; live_pools := f (live_pools w) |}.

(** [request.get_json()]: Flask raises [BadRequest] when the request
    announces JSON and its body does not parse, and returns [get_json]
    otherwise. *)
Definition request_get_json (req : Request) : M (option json) :=
  match req_body req with
  | Unparseable => raise (BadRequest "The browser (or proxy) sent a request that this server could not understand.")
  | NoJson | Parsed _ => mret (get_json req)
  end.

(** A new identifier for a demo, a user or a role. *)
Definition new_id : M Z :=
  w ← get_world;
  modify (set_next_id (fun n => n + 1));;
  mret (next_id w).

(** [datetime.utcnow()] *)
Definition utcnow : M Z := w ← get_world; mret (clock w).

(** [timedelta(days=n)], in seconds. *)
Definition timedelta_days (n : Z) : Z := n * 86400.

(* ===================================================================== *)
(** ** [server.web.utils]                                                *)
(* ===================================================================== *)

Module web_utils.

(** Modelled from the spec: [get_token_from_request] is missing.  A
    request without a token is a token that cannot be decoded for a
    structural reason (section 4.3, authenticate): a [TokenException]. *)
Definition get_token_from_request (req : Request) : M (option token) :=
  match req_token req with
  | Some t => mret (Some t)
  | None => raise (APIException TokenInvalid "Unable to get token from request" "")
  end.

(** Modelled from the spec: [tokenize] is missing.  Section 4.2, issue:
    a signed encoding of the fields, the signature made with the
    process-wide secret. *)
Definition tokenize (env : Env) (data : auth_data) : token :=
  Jwt data (sign env (secret env) data).

(** Modelled from the spec: [detokenize] is missing.  Section 4.2,
    decode: fails with TokenInvalid when the encoding is malformed or
    the signature does not verify; checks neither the expiry nor that
    the session exists. *)
Definition detokenize (env : Env) (t : token) : M auth_data :=
  match t with
  | Jwt data sg =>
      if decide (sg = sign env (secret env) data) then mret data
      else raise (APIException TokenInvalid "Error decoding token" "signature")
  | Opaque _ => raise (APIException TokenInvalid "Error decoding token" "malformed")
  end.

(** Modelled from the spec: [check_null_input] is missing.  Section 7,
    UnprocessableEntity: a required input is missing.  A field is
    given as whether its value is [None], and its description. *)
Fixpoint check_null_input (fields : list (bool * string)) : M unit :=
  match fields with
  | [] => mret tt
  | (is_none, what) :: rest =>
      if is_none
      then raise (APIException UnprocessableEntity ("You must specify a " +:+ what) "")
      else check_null_input rest
  end.

(** Modelled from the spec: [get_json_data] is missing.  Section 4.3,
    createDemoUser reads its inputs from the request: the parsed JSON
    body. *)
Definition get_json_data (req : Request) : option json := req_json req.

(** Is [x] the Python value [None]? *)
Definition is_None {A : Type} (x : option A) : bool :=
  match x with
  | None => true
  | Some _ => false
  end.

(** Reading the attribute [g.auth]. *)
Definition read_g_auth : M (option auth_data) :=
  w ← get_world;
  match g_auth w with
  | Unset => raise (PythonError "AttributeError" "'_AppCtxGlobals' object has no attribute 'auth'")
  | PyNone => mret None
  | AuthDict d => mret (Some d)
  end.

(** Is the decoded token past its expiry at time [now]?  Section 3: a
    token is valid only while the current time is before expiresAt. *)
Definition expired (now : Z) (d : auth_data) : bool :=
  match exp d with
  | Some t => bool_decide (t <= now)
  | None => false
  end.

(** Modelled from the spec: the decorator [logged_in] is missing.
    Section 4.3: a protected operation requires a previously
    authenticated token; an anonymous caller, and a caller whose token
    decoded but is expired, are refused with AuthenticationFailed when
    the operation is attempted. *)
Definition logged_in {A : Type} (func : M A) : M A :=
  a ← read_g_auth;
  match a with
  | None => raise (APIException AuthenticationFailed "No existing user session" "")
  | Some d =>
      now ← utcnow;
      if expired now d
      then raise (APIException AuthenticationFailed "User session expired" "")
      else func
  end.

End web_utils.

(* ===================================================================== *)
(** ** [server.services.demos]: the session store                        *)
(* ===================================================================== *)

Module demo_service.

(** The seed role of a new demo. *)
Definition seed_role (rid now : Z) : Role :=
  mkRole rid "supplychainmanager" now now.

(** The seed user of a new demo; name and address derive from the guid. *)
Definition seed_user (uid did now rid : Z) (guid : string) : User :=
  mkUser uid did ("Supply Chain Manager (" +:+ guid +:+ ")")
         ("chris." +:+ guid +:+ "@acme.com") [seed_role rid now].

(** Modelled from the spec: [create_demo] is missing.  Section 4.1,
    createSession: a guid that was never handed out before, one seed
    user with exactly one role named supplychainmanager; the seed user
    is provisioned on the back end first, and when that fails nothing of
    the session is left behind.  [issued] remembers every guid handed
    out. *)
Definition create_demo (env : Env) : M Demo :=
  w ← get_world;
  let guid := fresh (issued w) in
  modify (set_issued (fun s => {[guid]} ∪ s));;
  modify (log_erp (ProvisionSeedUser guid));;
  match erp_provision env guid with
  | Some e => raise e
  | None =>
      did ← new_id;
      uid ← new_id;
      rid ← new_id;
      now ← utcnow;
      let demo := mkDemo did guid "Demo" now [seed_user uid did now rid guid] in
      modify (set_demos (insert guid demo));;
      mret demo
  end.

(** Modelled from the spec: [get_demo_by_guid] is missing.  Section
    4.1, getSessionByGuid. *)
Definition get_demo_by_guid (guid : string) : M Demo :=
  w ← get_world;
  match demos w !! guid with
  | Some demo => mret demo
  | None => raise (APIException ResourceNotFound "Demo does not exist" guid)
  end.

(** Modelled from the spec: [delete_demo_by_guid] is missing.  Section
    4.1, deleteSessionByGuid: the session goes with all its users, and
    what the back end holds for it is released. *)
Definition delete_demo_by_guid (guid : string) : M unit :=
  w ← get_world;
  match demos w !! guid with
  | Some _ =>
      modify (set_demos (delete guid));;
      modify (log_erp (RetractDemo guid))
  | None => raise (APIException ResourceNotFound "Demo does not exist" guid)
  end.

(** Modelled from the spec: [get_demo_retailers] is missing.  Section
    4.1, listRetailersForSession: the session must exist; the retailers
    are asked of the back end with the credential of the store itself
    and returned as the back end gives them. *)
Definition get_demo_retailers (env : Env) (guid : string) : M string :=
  w ← get_world;
  match demos w !! guid with
  | Some _ =>
      match outcome (erp_read env get_retailers (admin_token env)) with
      | inr retailers => mret retailers
      | inl e => raise e
      end
  | None => raise (APIException ResourceNotFound "Demo does not exist" guid)
  end.

End demo_service.

(* ===================================================================== *)
(** ** [server.services.users]                                           *)
(* ===================================================================== *)

Module user_service.

Definition add_user (u : User) (demo : Demo) : Demo :=
  mkDemo (demo_id demo) (demo_guid demo) (demo_name demo) (demo_createdAt demo)
         (users demo ++ [u]).

(** Modelled from the spec: [create_user] is missing.  Section 4.1,
    addUserForRetailer: a new user of the session, without a role,
    appended to the session's users. *)
Definition create_user (guid : string) (retailer_id : option json) : M User :=
  w ← get_world;
  match demos w !! guid with
  | Some demo =>
      uid ← new_id;
      let u := mkUser uid (demo_id demo) ("Retail Store Manager (" +:+ guid +:+ ")")
                      ("ruth." +:+ guid +:+ "@acme.com") [] in
      modify (set_demos (insert guid (add_user u demo)));;
      mret u
  | None => raise (APIException ResourceNotFound "Demo does not exist" guid)
  end.

(** Does the session have a user with this id? *)
Definition has_user (uid : Z) (demo : Demo) : bool :=
  existsb (fun u => bool_decide (user_id u = uid)) (users demo).

(** Modelled from the spec: [login] is missing.  Section 4.3, login:
    the session and the user within it must exist (ResourceNotFound
    otherwise), then the identity is exchanged for a credential of the
    back end (AuthenticationFailed when the back end refuses).  User
    ids are numbers: no user has an id that is anything else. *)
Definition login (env : Env) (guid : string) (uid : option json) : M auth_data :=
  w ← get_world;
  match demos w !! guid with
  | Some demo =>
      match uid with
      | Some (JNum n) =>
          if has_user n demo then
            modify (log_erp (AuthenticateUser guid n));;
            match erp_authenticate env guid n with
            | inr credential => mret (mkAuth guid n credential None)
            | inl e => raise (APIException AuthenticationFailed "Login failed" (str_exn e))
            end
          else raise (APIException ResourceNotFound "User does not exist" guid)
      | _ => raise (APIException ResourceNotFound "User does not exist" guid)
      end
  | None => raise (APIException ResourceNotFound "Demo does not exist" guid)
  end.

(** Modelled from the spec: [logout] is missing.  Section 6,
    revokeCredential: the credential is revoked on the back end. *)
Definition logout (env : Env) (credential : string) : M unit :=
  modify (log_erp (RevokeCredential credential));;
  match erp_revoke env credential with
  | Some e => raise e
  | None => mret tt
  end.

End user_service.

(* ===================================================================== *)
(** ** [multiprocessing.Pool] and [server.utils.async_helper]            *)
(* ===================================================================== *)

(** Modelled from the spec: [async_helper] is missing.  Section 4.4:
    each call is run with its own credential; the first component of
    the pair is the function, the second its argument. *)
Definition async_helper (env : Env) (call : service * string) : reply :=
  erp_read env call.1 call.2.

(** [Pool(processes=n)]: one more pool of workers is alive. *)
Definition Pool (processes : nat) : M unit :=
  modify (set_live_pools S).

(** [pool.close(); pool.join()]: the workers are gone. *)
Definition pool_close_join : M unit :=
  modify (set_live_pools Nat.pred).

(** The failure that [pool.map] reports: that of the job that failed
    first, that is with the least delay (the earlier job when two fail
    at the same time), with the time at which it failed. *)
Fixpoint first_failure (rs : list reply) : option (nat * exn) :=
  match rs with
  | [] => None
  | r :: rest =>
      match outcome r, first_failure rest with
      | inl e, Some (d, e') =>
          if decide (delay r <= d)%nat then Some (delay r, e) else Some (d, e')
      | inl e, None => Some (delay r, e)
      | inr _, later => later
      end
  end.

Definition successful (r : reply) : option string :=
  match outcome r with
  | inr s => Some s
  | inl _ => None
  end.

(** The time at which the last job is done. *)
Definition max_delay (rs : list reply) : nat :=
  foldr (fun r m => Nat.max (delay r) m) 0%nat rs.

Definition advance (d : nat) : World -> World :=
  set_clock (fun t => t + Z.of_nat d).

(** [pool.map(f, xs)]: all jobs run at once, each on its own worker.  The
    caller is blocked until the first failure, which is raised, or else
    until all jobs are done; the results come in the order of [xs]. *)
Definition pool_map {A : Type} (f : A -> reply) (xs : list A) : M (list string) :=
  let rs := map f xs in
  match first_failure rs with
  | Some (d, e) => modify (advance d);; raise e
  | None => modify (advance (max_delay rs));; mret (omap successful rs)
  end.

(** [results[i]] *)
Definition index (results : list string) (i : nat) : M string :=
  match results !! i with
  | Some r => mret r
  | None => raise (PythonError "IndexError" "list index out of range")
  end.

(** [json.loads(s)] *)
Definition loads (env : Env) (s : string) : M json :=
  match json_loads env s with
  | Some v => mret v
  | None => raise (PythonError "ValueError" "No JSON object could be decoded")
  end.

(* ===================================================================== *)
(** ** [server/web/rest/demos.py]: the handlers                          *)
(* ===================================================================== *)

(** The body of a response, before it is serialized. *)
Inductive body : Type :=
  | Empty
  | DemoJson (demo : Demo)
  | UserJson (user : User)
  | TokenJson (t : token)
  | DictJson (d : gmap string json)
  | Serialized (s : string)
  | ErrorJson (code : Z) (message : string).

Record Response : Type := mkResponse {
  resp_body : body;
  status : Z;
  cookie : option token
}.

(** [setup_auth_from_request]: runs before every request. *)
Definition setup_auth_from_request (env : Env) (req : Request) : M unit :=
  try_except
    (tok ← web_utils.get_token_from_request req;
     match tok with
     | Some t =>
         d ← web_utils.detokenize env t;
         modify (set_g_auth (AuthDict d))
     | None => mret tt
     end)
    isinstance_Token_or_NotFound
    (fun _ => modify (set_g_auth PyNone)).

(** [POST /demos] *)
Definition create_demo (env : Env) : M Response :=
  demo ← demo_service.create_demo env;
  mret (mkResponse (DemoJson demo) 201 None).

(** [GET /demos/<guid>] *)
Definition get_demo (guid : string) : M Response :=
  web_utils.check_null_input [(web_utils.is_None (Some guid), "demo to retrieve")];;
  demo ← demo_service.get_demo_by_guid guid;
  mret (mkResponse (DemoJson demo) 200 None).

(** [DELETE /demos/<guid>] *)
Definition delete_demo (guid : string) : M Response :=
  web_utils.check_null_input [(web_utils.is_None (Some guid), "demo to delete")];;
  demo_service.delete_demo_by_guid guid;;
  mret (mkResponse Empty 204 None).

(** [GET /demos/<guid>/retailers] *)
Definition get_demo_retailers (env : Env) (guid : string) : M Response :=
  web_utils.check_null_input
    [(web_utils.is_None (Some guid), "demo for which to retrieve retailers")];;
  retailers ← demo_service.get_demo_retailers env guid;
  mret (mkResponse (Serialized retailers) 200 None).

(** [POST /demos/<guid>/users] *)
Definition create_demo_user (guid : string) (req : Request) : M Response :=
  let data := web_utils.get_json_data req in
  retailer_id ← lift (py_get data "retailerId");
  web_utils.check_null_input
    [(web_utils.is_None (Some guid), "demo for which to create a user");
     (web_utils.is_None retailer_id, "retailer to make a user for the demo")];;
  user ← user_service.create_user guid retailer_id;
  mret (mkResponse (UserJson user) 201 None).

Definition with_exp (d : auth_data) (t : Z) : auth_data :=
  mkAuth (auth_guid d) (auth_user_id d) (loopback_token d) (Some t).

(** [POST /demos/<guid>/login] *)
Definition demo_login (env : Env) (guid : string) (req : Request) : M Response :=
  data ← request_get_json req;
  uid ← lift (py_get data "userId");
  web_utils.check_null_input
    [(web_utils.is_None uid, "username when logging in");
     (web_utils.is_None (Some guid), "demo guid when logging in")];;
  auth ← user_service.login env guid uid;
  now ← utcnow;
  let auth := with_exp auth (now + timedelta_days 14) in
  let tok := web_utils.tokenize env auth in
  mret (mkResponse (TokenJson tok) 200 (Some tok)).

(** [g.auth['loopback_token']] *)
Definition g_auth_loopback_token : M string :=
  a ← web_utils.read_g_auth;
  match a with
  | Some d => mret (loopback_token d)
  | None => raise (PythonError "TypeError" "'NoneType' object has no attribute '__getitem__'")
  end.

(** [DELETE /logout/<token>] *)
Definition deauthenticate (env : Env) (tok : token) (req : Request) : M Response :=
  request_token ← web_utils.get_token_from_request req;
  (if decide (request_token = Some tok)
   then credential ← g_auth_loopback_token; user_service.logout env credential
   else mret tt);;
  mret (mkResponse Empty 204 None).

(** The dictionary sent back by the admin view. *)
Definition admin_view (shipments centers retailers : json) : gmap string json :=
  <["shipments" := shipments]>
    (<["distribution-centers" := centers]>
       (<["retailers" := retailers]> ∅)).

(** [GET /admin] *)
Definition load_admin_data (env : Env) : M Response :=
  web_utils.logged_in
    (token_ ← g_auth_loopback_token;
     let erp_calls := [(get_shipments, token_);
                       (get_distribution_centers, token_);
                       (get_retailers, token_)] in
     Pool (length erp_calls);;
     results ← try_except (pool_map (async_helper env) erp_calls)
                 (fun _ => true)
                 (fun e => raise (APIException APIError "Error retrieving admin data view"
                                               (str_exn e)));
     pool_close_join;;
     r0 ← index results 0;
     shipments ← loads env r0;
     r1 ← index results 1;
     centers ← loads env r1;
     r2 ← index results 2;
     retailers ← loads env r2;
     mret (mkResponse (DictJson (admin_view shipments centers retailers)) 200 None)).

(* ===================================================================== *)
(** ** [server/web/__init__.py]: error handling and dispatch             *)
(* ===================================================================== *)

(** [exception_handler]: the exception whose details are sent back. *)
Definition exception_handler (e : exn) : exn :=
  if isinstance_APIException e then e
  else APIException APIError "Server Error" (str_exn e).

(** [bad_request_handler]: every HTTP exception with code 400 is
    answered with the same body and status 400. *)
Definition bad_request_handler (e : exn) : Response :=
  mkResponse (ErrorJson 400 "Bad request.") 400 None.

(** The routes of the blueprint. *)
Inductive endpoint : Type :=
  | CreateDemo
  | GetDemo (guid : string)
  | DeleteDemo (guid : string)
  | GetDemoRetailers (guid : string)
  | CreateDemoUser (guid : string)
  | DemoLogin (guid : string)
  | Deauthenticate (tok : token)
  | LoadAdminData.

Definition handler (env : Env) (ep : endpoint) (req : Request) : M Response :=
  match ep with
  | CreateDemo => create_demo env
  | GetDemo guid => get_demo guid
  | DeleteDemo guid => delete_demo guid
  | GetDemoRetailers guid => get_demo_retailers env guid
  | CreateDemoUser guid => create_demo_user guid req
  | DemoLogin guid => demo_login env guid req
  | Deauthenticate tok => deauthenticate env tok req
  | LoadAdminData => load_admin_data env
  end.

(** One request from start to end: a new [g], the [before_request] hook,
    the handler, and the error handlers registered by [create_app] on
    whatever was raised: [bad_request_handler] answers an HTTP exception
    with code 400, [exception_handler] every other exception (the handler
    for code 404 answers requests that match no route, which are not
    among the routes here). *)
Definition serve (env : Env) (ep : endpoint) (req : Request) (w : World)
  : (exn + Response) * World :=
  match (setup_auth_from_request env req;; handler env ep req) (set_g_auth Unset w) with
  | (inr resp, w') => (inr resp, w')
  | (inl e, w') =>
      if isinstance_BadRequest e
      then (inr (bad_request_handler e), w')
      else (inl (exception_handler e), w')
  end.

(** A history of requests, served one after the other. *)
Fixpoint run (env : Env) (calls : list (endpoint * Request)) (w : World)
  : list (endpoint * (exn + Response)) * World :=
  match calls with
  | [] => ([], w)
  | (ep, req) :: rest =>
      let '(r, w1) := serve env ep req w in
      let '(h, w2) := run env rest w1 in
      ((ep, r) :: h, w2)
  end.

(** The guids that [create_demo] has returned in a history. *)
Fixpoint produced (h : list (endpoint * (exn + Response))) : gset string :=
  match h with
  | [] => ∅
  | (CreateDemo, inr (mkResponse (DemoJson demo) _ _)) :: rest => {[demo_guid demo]} ∪ produced rest
  | _ :: rest => produced rest
  end.

(* ===================================================================== *)
(** ** Notions used to state the properties                              *)
(* ===================================================================== *)

(** Does the signature of a token verify? *)
Definition well_signed (env : Env) (t : token) : bool :=
  match t with
  | Jwt d sg => bool_decide (sg = sign env (secret env) d)
  | Opaque _ => false
  end.

(** What [g.auth] holds once [setup_auth_from_request] has run on a new
    request. *)
Definition hook_auth (env : Env) (req : Request) : g_attr :=
  match req_token req with
  | Some (Jwt d sg) => if well_signed env (Jwt d sg) then AuthDict d else PyNone
  | _ => PyNone
  end.

(** What the error handlers of [create_app] make of the outcome of a
    handler. *)
Definition answer (r : exn + Response) : exn + Response :=
  match r with
  | inr resp => inr resp
  | inl e =>
      if isinstance_BadRequest e then inr (bad_request_handler e)
      else inl (exception_handler e)
  end.

(** Computations that leave the session store as it is. *)
Definition keeps_demos {A : Type} (m : M A) : Prop :=
  forall w, demos (m w).2 = demos w.

(** The key of the admin view under which the result of a service goes:
    [erp_calls] and the dictionary pair them by position. *)
Definition key_of (s : service) : string :=
  match s with
  | get_shipments => "shipments"
  | get_distribution_centers => "distribution-centers"
  | get_retailers => "retailers"
  end.

(** The services of [erp_calls], in their order. *)
Definition admin_services : list service :=
  [get_shipments; get_distribution_centers; get_retailers].

(** The replies of the three calls of the admin view. *)
Definition admin_replies (env : Env) (credential : string) : list reply :=
  map (async_helper env)
      [(get_shipments, credential);
       (get_distribution_centers, credential);
       (get_retailers, credential)].

(** [setup_auth_from_request] with the two functions of
    [server.web.utils] it calls left open: [get_token] stands for
    [web_utils.get_token_from_request()] and [detok] for
    [web_utils.detokenize]. *)
Definition setup_auth_from_request_with
    (get_token : M (option token)) (detok : token -> M auth_data) : M unit :=
  try_except
    (tok ← get_token;
     match tok with
     | Some t =>
         d ← detok t;
         modify (set_g_auth (AuthDict d))
     | None => mret tt
     end)
    isinstance_Token_or_NotFound
    (fun _ => modify (set_g_auth PyNone)).


(** The routes that create, change or delete a session. *)
Definition changes_sessions (ep : endpoint) : bool :=
  match ep with
  | CreateDemo | DeleteDemo _ | CreateDemoUser _ => true
  | _ => false
  end.

(** The status each route answers with when it succeeds. *)
Definition success_status (ep : endpoint) : Z :=
  match ep with
  | CreateDemo => 201
  | GetDemo _ => 200
  | DeleteDemo _ => 204
  | GetDemoRetailers _ => 200
  | CreateDemoUser _ => 201
  | DemoLogin _ => 200
  | Deauthenticate _ => 204
  | LoadAdminData => 200
  end.

(** The routes that answer with an empty body. *)
Definition answers_empty (ep : endpoint) : bool :=
  match ep with
  | DeleteDemo _ | Deauthenticate _ => true
  | _ => false
  end.

(** A session as [create_demo] leaves it and [create_demo_user] keeps
    it: stored under its own guid, its first user the seed user with the
    single role supplychainmanager. *)
Definition seeded (guid : string) (demo : Demo) : Prop :=
  demo_guid demo = guid /\
  exists u others r,
    users demo = u :: others /\ roles u = [r] /\ role_name r = "supplychainmanager".

Definition store_seeded (w : World) : Prop :=
  forall guid demo, demos w !! guid = Some demo -> seeded guid demo.

(* ===================================================================== *)
(** ** Small concrete environments, for running the handlers             *)
(* ===================================================================== *)

(** A decoder that knows three documents. *)
Definition sample_loads (s : string) : option json :=
  if decide (s = "[]") then Some (JArr [])
  else if decide (s = "[1]") then Some (JArr [JNum 1])
  else if decide (s = "[2]") then Some (JArr [JNum 2])
  else None.

(** A back end where shipments take longest and everything succeeds. *)
Definition sample_read (s : service) (credential : string) : reply :=
  match s with
  | get_shipments => mkReply 30 (inr "[1]")
  | get_distribution_centers => mkReply 10 (inr "[2]")
  | get_retailers => mkReply 20 (inr "[]")
  end.

Definition sample_sign (key : string) (d : auth_data) : N :=
  N.of_nat (String.length key + String.length (auth_guid d) + String.length (loopback_token d)).

Definition env_with (read : service -> string -> reply) : Env :=
  {| secret := "secret";
     admin_token := "admin";
     sign := sample_sign;
     json_loads := sample_loads;
     erp_read := read;
     erp_provision := fun _ => None;
     erp_authenticate := fun guid uid => inr ("credential-" +:+ guid);
     erp_revoke := fun _ => None |}.

Definition sample_env : Env := env_with sample_read.

(** A back end whose distribution centers fail early and whose retailers
    fail late. *)
Definition failing_read (s : service) (credential : string) : reply :=
  match s with
  | get_shipments => mkReply 30 (inr "[1]")
  | get_distribution_centers =>
      mkReply 10 (inl (APIException AuthenticationFailed "Invalid credential" ""))
  | get_retailers => mkReply 20 (inl (PythonError "IOError" "connection reset"))
  end.

Definition failing_env : Env := env_with failing_read.

(** The results of [sample_read], completing in another order. *)
Definition permuted_read (s : service) (credential : string) : reply :=
  match s with
  | get_shipments => mkReply 1 (inr "[1]")
  | get_distribution_centers => mkReply 7 (inr "[2]")
  | get_retailers => mkReply 3 (inr "[]")
  end.

Definition permuted_env : Env := env_with permuted_read.

(** A back end whose retailers are not a JSON document. *)
Definition garbled_read (s : service) (credential : string) : reply :=
  match s with
  | get_shipments => mkReply 30 (inr "[1]")
  | get_distribution_centers => mkReply 10 (inr "[2]")
  | get_retailers => mkReply 20 (inr "<html>")
  end.

Definition garbled_env : Env := env_with garbled_read.

(** A request that announces JSON and whose body does not parse. *)
Definition unparseable_request : Request := mkRequestBody None Unparseable.

(** A request with neither a token nor a body. *)
Definition no_request : Request := mkRequest None None.

(** The world after one [create_demo], and the demo it returns. *)
Definition seeded_world : World := (create_demo sample_env init_world).2.

Definition seeded_demo : Demo :=
  mkDemo 1 "0" "Demo" 0
         [mkUser 2 1 "Supply Chain Manager (0)" "chris.0@acme.com"
                 [mkRole 3 "supplychainmanager" 0 0]].

(** Two demos are created, the first is looked up and deleted. *)
Definition sample_history : list (endpoint * Request) :=
  [(CreateDemo, no_request); (CreateDemo, no_request);
   (GetDemo "0", no_request); (DeleteDemo "0", no_request)].

(** A demo is created and a user for retailer 7 is added to it. *)
Definition user_history : list (endpoint * Request) :=
  [(CreateDemo, no_request);
   (CreateDemoUser "0", mkRequest None (Some (JObj [("retailerId", JNum 7)])))].

(** The demo "0" after [user_history]: the seed user, then the new one. *)
Definition demo_with_two_users : Demo :=
  mkDemo 1 "0" "Demo" 0
         [mkUser 2 1 "Supply Chain Manager (0)" "chris.0@acme.com"
                 [mkRole 3 "supplychainmanager" 0 0];
          mkUser 4 1 "Retail Store Manager (0)" "ruth.0@acme.com" []].

(** A request to log in as user 2. *)
Definition login_request : Request :=
  mkRequest None (Some (JObj [("userId", JNum 2)])).

(** What [demo_login] puts in the token of user 2 of demo "0" at time 0. *)
Definition sample_auth : auth_data :=
  mkAuth "0" 2 "credential-0" (Some (timedelta_days 14)).

(** A request that carries the token issued for [sample_auth]. *)
Definition sample_request : Request :=
  mkRequest (Some (web_utils.tokenize sample_env sample_auth)) None.

(** A world in which the caller of the current request is logged in. *)
Definition authed_world : World :=
  set_g_auth (AuthDict sample_auth) init_world.

(** A world whose clock is past the expiry of [sample_auth]. *)
Definition late_world : World := set_clock (fun _ => 2000000) init_world.

(* ===================================================================== *)
(** * Properties                                                         *)
(* ===================================================================== *)

(** Unfolding the monad. *)
Tactic Notation "unfold_M" :=
  cbv beta iota delta [mbind mret M_bind M_ret raise modify get_world lift
                       try_except utcnow new_id].
Tactic Notation "unfold_M" "in" hyp(H) :=
  cbv beta iota delta [mbind mret M_bind M_ret raise modify get_world lift
                       try_except utcnow new_id] in H.

(** ** Reading the body of a request *)

Lemma request_get_json_bind {A : Type} (req : Request) (k : option json -> M A) :
  req_body req <> Unparseable ->
  (request_get_json req ≫= k) = k (get_json req).
Proof. unfold request_get_json. by destruct (req_body req). Qed.

Lemma request_get_json_unparseable {A : Type} (req : Request) (k : option json -> M A)
    (w : World) :
  req_body req = Unparseable ->
  exists m, (request_get_json req ≫= k) w = (inl (BadRequest m), w).
Proof. unfold request_get_json. intros ->. unfold_M. eauto. Qed.

Lemma py_get_parsed (req : Request) (key : string) (x : option json) :
  py_get (get_json req) key = inr x -> req_body req <> Unparseable.
Proof. unfold get_json, req_json. by destruct (req_body req). Qed.

Lemma get_json_parsed (req : Request) (v : json) :
  get_json req = Some v -> req_body req <> Unparseable.
Proof. unfold get_json, req_json. by destruct (req_body req). Qed.

(** ** The aggregation of [load_admin_data] *)

Section aggregation.
Context (env : Env).

Lemma first_failure_None (rs : list reply) :
  first_failure rs = None ->
  Forall (fun r => exists s, outcome r = inr s) rs.
Proof.
  induction rs as [|r rs IH]; simpl; [constructor|].
  destruct (outcome r) as [e|s] eqn:Hr.
  - destruct (first_failure rs) as [[d e']|]; [case_decide|]; discriminate.
  - intros H. constructor; eauto.
Qed.

Lemma first_failure_Some (rs : list reply) (d : nat) (e : exn) :
  first_failure rs = Some (d, e) ->
  exists r, r ∈ rs /\ outcome r = inl e /\ delay r = d.
Proof.
  revert d e. induction rs as [|r rs IH]; simpl; intros d e; [discriminate|].
  destruct (outcome r) as [e0|s] eqn:Hr.
  - destruct (first_failure rs) as [[d' e']|] eqn:Hf.
    + case_decide; intros [= <- <-].
      * exists r. split; [left|done].
      * destruct (IH _ _ eq_refl) as (r' & Hin & Ho & Hd).
        exists r'. split; [by right|done].
    + intros [= <- <-]. exists r. split; [left|done].
  - intros H. destruct (IH _ _ H) as (r' & Hin & Ho & Hd).
    exists r'. split; [by right|done].
Qed.

Lemma first_failure_is_Some (rs : list reply) (r : reply) (e : exn) :
  r ∈ rs -> outcome r = inl e ->
  exists d e', first_failure rs = Some (d, e').
Proof.
  intros Hin Ho. destruct (first_failure rs) as [[d e']|] eqn:Hf; [eauto|].
  apply first_failure_None in Hf. rewrite Forall_forall in Hf.
  destruct (Hf r Hin) as [s Hs]. congruence.
Qed.

Lemma admin_replies_elem (credential : string) (r : reply) :
  r ∈ admin_replies env credential <->
  exists s, r = erp_read env s credential.
Proof.
  unfold admin_replies, async_helper. simpl. split.
  - intros H. repeat (apply elem_of_cons in H as [->|H]); eauto.
    by apply elem_of_nil in H.
  - intros [[] ->]; set_solver.
Qed.

(** What [load_admin_data] does once the caller is known to be logged
    in with a token that has not expired. *)
Lemma load_admin_data_logged_in (w : World) (d : auth_data) :
  g_auth w = AuthDict d ->
  web_utils.expired (clock w) d = false ->
  load_admin_data env w =
    match first_failure (admin_replies env (loopback_token d)) with
    | Some (t, e) =>
        (inl (APIException APIError "Error retrieving admin data view" (str_exn e)),
         advance t (set_live_pools S w))
    | None =>
        let w' := set_live_pools Nat.pred
                    (advance (max_delay (admin_replies env (loopback_token d)))
                             (set_live_pools S w)) in
        let results := omap successful (admin_replies env (loopback_token d)) in
        (r0 ← index results 0;
         shipments ← loads env r0;
         r1 ← index results 1;
         centers ← loads env r1;
         r2 ← index results 2;
         retailers ← loads env r2;
         mret (mkResponse (DictJson (admin_view shipments centers retailers)) 200 None)) w'
    end.
Proof.
  intros Hg Hexp.
  unfold load_admin_data, web_utils.logged_in, g_auth_loopback_token,
    web_utils.read_g_auth, Pool, pool_close_join, pool_map.
  unfold_M. rewrite Hg. unfold_M. rewrite Hexp, Hg. unfold_M.
  change (map (async_helper env) _) with (admin_replies env (loopback_token d)).
  generalize (admin_replies env (loopback_token d)). intros rs.
  destruct (first_failure rs) as [[t e]|]; reflexivity.
Qed.

End aggregation.

Section aggregation_results.
Context (env : Env).

Lemma load_admin_data_expired (w : World) (d : auth_data) :
  g_auth w = AuthDict d ->
  web_utils.expired (clock w) d = true ->
  load_admin_data env w =
    (inl (APIException AuthenticationFailed "User session expired" ""), w).
Proof.
  intros Hg Hexp.
  unfold load_admin_data, web_utils.logged_in, web_utils.read_g_auth.
  unfold_M. rewrite Hg. unfold_M. by rewrite Hexp.
Qed.

Lemma load_admin_data_anonymous (w : World) :
  g_auth w = PyNone ->
  load_admin_data env w =
    (inl (APIException AuthenticationFailed "No existing user session" ""), w).
Proof.
  intros Hg.
  unfold load_admin_data, web_utils.logged_in, web_utils.read_g_auth.
  unfold_M. by rewrite Hg.
Qed.

Lemma load_admin_data_unset (w : World) :
  g_auth w = Unset ->
  exists m, load_admin_data env w = (inl (PythonError "AttributeError" m), w).
Proof.
  intros Hg.
  unfold load_admin_data, web_utils.logged_in, web_utils.read_g_auth.
  unfold_M. rewrite Hg. eauto.
Qed.

(** When no call fails, the results are those of the three calls, in
    the order of [erp_calls]. *)
Lemma admin_results_all (credential : string) :
  first_failure (admin_replies env credential) = None ->
  exists r0 r1 r2,
    outcome (erp_read env get_shipments credential) = inr r0 /\
    outcome (erp_read env get_distribution_centers credential) = inr r1 /\
    outcome (erp_read env get_retailers credential) = inr r2 /\
    omap successful (admin_replies env credential) = [r0; r1; r2].
Proof.
  intros Hf. apply first_failure_None in Hf.
  unfold admin_replies, async_helper in *. simpl in *.
  inversion Hf as [|? ? [r0 H0] Hf1]; subst.
  inversion Hf1 as [|? ? [r1 H1] Hf2]; subst.
  inversion Hf2 as [|? ? [r2 H2] _]; subst.
  exists r0, r1, r2. repeat split; try done.
  unfold successful. by rewrite H0, H1, H2.
Qed.

(** A successful admin view, taken apart. *)
Lemma load_admin_data_success (w w' : World) (d : auth_data) (resp : Response) :
  g_auth w = AuthDict d ->
  load_admin_data env w = (inr resp, w') ->
  exists r0 r1 r2 v0 v1 v2,
    outcome (erp_read env get_shipments (loopback_token d)) = inr r0 /\
    outcome (erp_read env get_distribution_centers (loopback_token d)) = inr r1 /\
    outcome (erp_read env get_retailers (loopback_token d)) = inr r2 /\
    json_loads env r0 = Some v0 /\
    json_loads env r1 = Some v1 /\
    json_loads env r2 = Some v2 /\
    resp = mkResponse (DictJson (admin_view v0 v1 v2)) 200 None /\
    w' = set_live_pools Nat.pred
           (advance (max_delay (admin_replies env (loopback_token d)))
                    (set_live_pools S w)).
Proof.
  intros Hg Hrun.
  destruct (web_utils.expired (clock w) d) eqn:Hexp.
  { rewrite (load_admin_data_expired w d Hg Hexp) in Hrun. discriminate. }
  rewrite (load_admin_data_logged_in env w d Hg Hexp) in Hrun.
  destruct (first_failure (admin_replies env (loopback_token d)))
    as [[t e]|] eqn:Hf; [discriminate|].
  destruct (admin_results_all _ Hf) as (r0 & r1 & r2 & H0 & H1 & H2 & Hres).
  rewrite Hres in Hrun. unfold index, loads in Hrun. simpl in Hrun.
  unfold_M in Hrun.
  destruct (json_loads env r0) as [v0|] eqn:L0; [|discriminate].
  destruct (json_loads env r1) as [v1|] eqn:L1; [|discriminate].
  destruct (json_loads env r2) as [v2|] eqn:L2; [|discriminate].
  injection Hrun as <- <-.
  exists r0, r1, r2, v0, v1, v2. by repeat split.
Qed.

Lemma admin_view_dom (v0 v1 v2 : json) :
  dom (admin_view v0 v1 v2) = list_to_set (key_of <$> admin_services).
Proof.
  unfold admin_view. rewrite !dom_insert_L, dom_empty_L. simpl. set_solver.
Qed.

Lemma admin_view_lookup (v0 v1 v2 : json) :
  admin_view v0 v1 v2 !! key_of get_shipments = Some v0 /\
  admin_view v0 v1 v2 !! key_of get_distribution_centers = Some v1 /\
  admin_view v0 v1 v2 !! key_of get_retailers = Some v2.
Proof. unfold admin_view, key_of. repeat split; by simplify_map_eq. Qed.

End aggregation_results.

(** C1.  Whenever [load_admin_data] is run for a logged-in caller and at
    least one of the three calls (shipments, distribution centers,
    retailers) fails, the handler ends with one APIError exception that
    carries the text of the exception of a call that failed; no response,
    and so no partial data, is returned, and the error handler passes
    that exception on as it is. *)
Theorem load_admin_data_fail_fast
    (env : Env) (w : World) (d : auth_data) (s : service) (e : exn) :
  g_auth w = AuthDict d ->
  web_utils.expired (clock w) d = false ->
  outcome (erp_read env s (loopback_token d)) = inl e ->
  exists s' e' w',
    outcome (erp_read env s' (loopback_token d)) = inl e' /\
    load_admin_data env w =
      (inl (APIException APIError "Error retrieving admin data view" (str_exn e')), w') /\
    exception_handler
      (APIException APIError "Error retrieving admin data view" (str_exn e')) =
      APIException APIError "Error retrieving admin data view" (str_exn e').
Proof.
  intros Hg Hexp Hfail.
  rewrite (load_admin_data_logged_in env w d Hg Hexp).
  assert (Hin : erp_read env s (loopback_token d) ∈ admin_replies env (loopback_token d))
    by (apply admin_replies_elem; eauto).
  destruct (first_failure_is_Some _ _ _ Hin Hfail) as (t & e' & Hf).
  rewrite Hf.
  destruct (first_failure_Some _ _ _ Hf) as (r & Hr & Ho & _).
  apply admin_replies_elem in Hr as [s' ->].
  exists s', e', (advance t (set_live_pools S w)). by repeat split.
Qed.

Lemma load_admin_data_fail_fast_witness :
  exists s' e' w',
    outcome (erp_read failing_env s' (loopback_token sample_auth)) = inl e' /\
    load_admin_data failing_env authed_world =
      (inl (APIException APIError "Error retrieving admin data view" (str_exn e')), w') /\
    exception_handler
      (APIException APIError "Error retrieving admin data view" (str_exn e')) =
      APIException APIError "Error retrieving admin data view" (str_exn e').
Proof.
  apply (load_admin_data_fail_fast failing_env authed_world sample_auth get_retailers
           (PythonError "IOError" "connection reset")); reflexivity.
Defined.

(** C2.  A successful [load_admin_data] returns a response that depends
    only on the results of the three calls: two runs in which every call
    gives the same result, whatever the delays and so the order in which
    the calls complete, return the same response.  Its dictionary has
    exactly the keys of the three services called, and under each key
    the decoded result of that service's own call. *)
Theorem load_admin_data_order_independent
    (env1 env2 : Env) (w1 w2 w1' w2' : World) (d : auth_data) (resp1 resp2 : Response) :
  (forall r, json_loads env1 r = json_loads env2 r) ->
  (forall s, outcome (erp_read env1 s (loopback_token d)) =
             outcome (erp_read env2 s (loopback_token d))) ->
  g_auth w1 = AuthDict d ->
  g_auth w2 = AuthDict d ->
  load_admin_data env1 w1 = (inr resp1, w1') ->
  load_admin_data env2 w2 = (inr resp2, w2') ->
  resp1 = resp2 /\
  exists m : gmap string json,
    resp_body resp1 = DictJson m /\
    dom m = list_to_set (key_of <$> admin_services) /\
    forall s, exists r v,
      outcome (erp_read env1 s (loopback_token d)) = inr r /\
      json_loads env1 r = Some v /\
      m !! key_of s = Some v.
Proof.
  intros Hloads Hsame Hg1 Hg2 Hrun1 Hrun2.
  destruct (load_admin_data_success env1 _ _ _ _ Hg1 Hrun1)
    as (r0 & r1 & r2 & v0 & v1 & v2 & H0 & H1 & H2 & L0 & L1 & L2 & -> & _).
  destruct (load_admin_data_success env2 _ _ _ _ Hg2 Hrun2)
    as (r0' & r1' & r2' & v0' & v1' & v2' & H0' & H1' & H2' & L0' & L1' & L2' & -> & _).
  rewrite <- Hsame in H0', H1', H2'.
  assert (r0' = r0) as -> by congruence.
  assert (r1' = r1) as -> by congruence.
  assert (r2' = r2) as -> by congruence.
  rewrite <- Hloads in L0', L1', L2'.
  assert (v0' = v0) as -> by congruence.
  assert (v1' = v1) as -> by congruence.
  assert (v2' = v2) as -> by congruence.
  split; [done|].
  exists (admin_view v0 v1 v2). split; [done|]. split; [apply admin_view_dom|].
  destruct (admin_view_lookup v0 v1 v2) as (K0 & K1 & K2).
  intros []; eauto 10.
Qed.

Lemma load_admin_data_order_independent_witness :
  exists resp w1' w2',
    load_admin_data sample_env authed_world = (inr resp, w1') /\
    load_admin_data permuted_env authed_world = (inr resp, w2') /\
    clock w1' <> clock w2' /\
    exists m : gmap string json,
      resp_body resp = DictJson m /\
      dom m = list_to_set (key_of <$> admin_services).
Proof.
  eexists _, _, _.
  split; [vm_compute; reflexivity|]. split; [vm_compute; reflexivity|].
  split; [vm_compute; discriminate|].
  destruct (load_admin_data_order_independent sample_env permuted_env
              authed_world authed_world
              (load_admin_data sample_env authed_world).2
              (load_admin_data permuted_env authed_world).2
              sample_auth
              (mkResponse (DictJson (admin_view (JArr [JNum 1]) (JArr [JNum 2]) (JArr []))) 200 None)
              (mkResponse (DictJson (admin_view (JArr [JNum 1]) (JArr [JNum 2]) (JArr []))) 200 None))
    as (_ & m & Hm & Hdom & _).
  - reflexivity.
  - intros []; reflexivity.
  - reflexivity.
  - reflexivity.
  - vm_compute; reflexivity.
  - vm_compute; reflexivity.
  - exists m. split; [exact Hm | exact Hdom].
Defined.

(** C3, as the spec words it, fails: here a timeout of 5 time units has
    long elapsed when the last of the three calls completes (after 30),
    and [load_admin_data], which takes no timeout, returns the full
    admin view after those 30 units instead of failing with
    AggregationTimeout. *)
Lemma load_admin_data_timeout_counterexample :
  (5 < max_delay (admin_replies sample_env (loopback_token sample_auth)))%nat /\
  (load_admin_data sample_env authed_world).1 =
    inr (mkResponse (DictJson (admin_view (JArr [JNum 1]) (JArr [JNum 2]) (JArr []))) 200 None) /\
  clock (load_admin_data sample_env authed_world).2 = clock authed_world + 30.
Proof. split; [vm_compute; lia|]. split; vm_compute; reflexivity. Qed.

(** C3, amended.  [load_admin_data] takes no timeout and never fails
    with AggregationTimeout; when it returns a response, it has waited
    for all three calls, however long the slowest took, and the worker
    pool it created has been closed and joined. *)
Theorem load_admin_data_waits_for_all (env : Env) (w : World) :
  (forall m i, (load_admin_data env w).1 <> inl (APIException AggregationTimeout m i)) /\
  (forall resp w',
     load_admin_data env w = (inr resp, w') ->
     exists d,
       g_auth w = AuthDict d /\
       clock w' = clock w + Z.of_nat (max_delay (admin_replies env (loopback_token d))) /\
       live_pools w' = live_pools w).
Proof.
  split.
  - intros m i.
    destruct (g_auth w) as [| |d] eqn:Hg.
    + destruct (load_admin_data_unset env w Hg) as [m' ->]. discriminate.
    + rewrite (load_admin_data_anonymous env w Hg). discriminate.
    + destruct (web_utils.expired (clock w) d) eqn:Hexp.
      { rewrite (load_admin_data_expired env w d Hg Hexp). discriminate. }
      rewrite (load_admin_data_logged_in env w d Hg Hexp).
      destruct (first_failure _) as [[t e]|]; [discriminate|].
      cbv zeta. generalize (omap successful (admin_replies env (loopback_token d))).
      intros results. unfold index, loads. unfold_M.
      repeat match goal with
             | |- context [match ?l !! ?n with _ => _ end] => destruct (l !! n)
             | |- context [match json_loads env ?s with _ => _ end] =>
                 destruct (json_loads env s)
             end; discriminate.
  - intros resp w' Hrun.
    destruct (g_auth w) as [| |d] eqn:Hg.
    + destruct (load_admin_data_unset env w Hg) as [m' Hm]. congruence.
    + rewrite (load_admin_data_anonymous env w Hg) in Hrun. discriminate.
    + destruct (load_admin_data_success env _ _ _ _ Hg Hrun)
        as (r0 & r1 & r2 & v0 & v1 & v2 & _ & _ & _ & _ & _ & _ & _ & ->).
      exists d. repeat split; reflexivity.
Qed.

Lemma load_admin_data_waits_for_all_witness :
  exists d,
    g_auth authed_world = AuthDict d /\
    clock (load_admin_data sample_env authed_world).2 =
      clock authed_world + Z.of_nat (max_delay (admin_replies sample_env (loopback_token d))) /\
    live_pools (load_admin_data sample_env authed_world).2 = live_pools authed_world.
Proof.
  apply (proj2 (load_admin_data_waits_for_all sample_env authed_world)
           (mkResponse (DictJson (admin_view (JArr [JNum 1]) (JArr [JNum 2]) (JArr []))) 200 None)).
  vm_compute. reflexivity.
Defined.

(** ** The session store *)

Section keeps_demos.
Context {A B : Type}.

Lemma keeps_demos_ret (a : A) : keeps_demos (mret a).
Proof. by intros w. Qed.

Lemma keeps_demos_raise (e : exn) : keeps_demos (raise e : M A).
Proof. by intros w. Qed.

Lemma keeps_demos_lift (r : exn + A) : keeps_demos (lift r).
Proof. by intros w. Qed.

Lemma keeps_demos_bind (m : M A) (k : A -> M B) :
  keeps_demos m -> (forall a, keeps_demos (k a)) -> keeps_demos (m ≫= k).
Proof.
  intros Hm Hk w. unfold_M. specialize (Hm w).
  destruct (m w) as [[e|a] w1]; simpl in *; [done|].
  by rewrite Hk.
Qed.

Lemma keeps_demos_try_except (m : M A) (catches : exn -> bool) (h : exn -> M A) :
  keeps_demos m -> (forall e, keeps_demos (h e)) -> keeps_demos (try_except m catches h).
Proof.
  intros Hm Hh w. unfold_M. specialize (Hm w).
  destruct (m w) as [[e|a] w1]; simpl in *; [|done].
  destruct (catches e); [|done]. by rewrite Hh.
Qed.

Lemma keeps_demos_if (b : bool) (m1 m2 : M A) :
  keeps_demos m1 -> keeps_demos m2 -> keeps_demos (if b then m1 else m2).
Proof. by destruct b. Qed.
End keeps_demos.

Lemma keeps_demos_get_world : keeps_demos get_world.
Proof. by intros w. Qed.

Lemma keeps_demos_modify (f : World -> World) :
  (forall w, demos (f w) = demos w) -> keeps_demos (modify f).
Proof. intros Hf w. apply Hf. Qed.

Create HintDb keeps discriminated.
#[local] Hint Resolve keeps_demos_ret keeps_demos_raise keeps_demos_lift
  keeps_demos_get_world keeps_demos_if : keeps.
#[local] Hint Extern 2 (keeps_demos (_ ≫= _)) => apply keeps_demos_bind; [|intros] : keeps.
#[local] Hint Extern 2 (keeps_demos (try_except _ _ _)) =>
  apply keeps_demos_try_except; [|intros] : keeps.
#[local] Hint Extern 2 (keeps_demos (modify _)) =>
  apply keeps_demos_modify; intros; reflexivity : keeps.
#[local] Hint Extern 5 (keeps_demos (match ?x with _ => _ end)) => destruct x : keeps.

Lemma keeps_demos_check_null_input (fields : list (bool * string)) :
  keeps_demos (web_utils.check_null_input fields).
Proof.
  induction fields as [|[[] what] rest IH]; simpl; auto with keeps.
Qed.

Lemma keeps_demos_setup_auth (env : Env) (req : Request) :
  keeps_demos (setup_auth_from_request env req).
Proof.
  unfold setup_auth_from_request, web_utils.get_token_from_request, web_utils.detokenize.
  auto 10 with keeps.
Qed.

Lemma keeps_demos_get_demo (guid : string) : keeps_demos (get_demo guid).
Proof.
  unfold get_demo, demo_service.get_demo_by_guid.
  pose proof keeps_demos_check_null_input. auto 10 with keeps.
Qed.

Lemma keeps_demos_get_demo_retailers (env : Env) (guid : string) :
  keeps_demos (get_demo_retailers env guid).
Proof.
  unfold get_demo_retailers, demo_service.get_demo_retailers.
  pose proof keeps_demos_check_null_input. auto 10 with keeps.
Qed.

Lemma keeps_demos_demo_login (env : Env) (guid : string) (req : Request) :
  keeps_demos (demo_login env guid req).
Proof.
  unfold demo_login, request_get_json, user_service.login, utcnow.
  pose proof keeps_demos_check_null_input. auto 20 with keeps.
Qed.

Lemma keeps_demos_deauthenticate (env : Env) (tok : token) (req : Request) :
  keeps_demos (deauthenticate env tok req).
Proof.
  unfold deauthenticate, web_utils.get_token_from_request, g_auth_loopback_token,
    web_utils.read_g_auth, user_service.logout.
  auto 20 with keeps.
Qed.

Lemma keeps_demos_load_admin_data (env : Env) : keeps_demos (load_admin_data env).
Proof.
  unfold load_admin_data, web_utils.logged_in, g_auth_loopback_token,
    web_utils.read_g_auth, utcnow, Pool, pool_close_join, pool_map, index, loads.
  auto 40 with keeps.
Qed.

(** What [create_demo] does to the store: it adds the session it
    returns, under its guid, or fails and adds nothing. *)
Lemma create_demo_store (env : Env) (w : World) :
  (exists demo,
      (create_demo env w).1 = inr (mkResponse (DemoJson demo) 201 None) /\
      demos (create_demo env w).2 = <[demo_guid demo := demo]> (demos w) /\
      demos (create_demo env w).2 !! demo_guid demo = Some demo /\
      exists u r, users demo = [u] /\ roles u = [r] /\ role_name r = "supplychainmanager") \/
  (exists e, (create_demo env w).1 = inl e /\ demos (create_demo env w).2 = demos w).
Proof.
  unfold create_demo, demo_service.create_demo. unfold_M.
  destruct (erp_provision env (fresh (issued w))) as [e|] eqn:Hp.
  - right. by exists e.
  - left. eexists. simpl. split; [reflexivity|]. split; [reflexivity|].
    split; [apply lookup_insert_eq|].
    eexists _, _. by repeat split.
Qed.

Lemma get_demo_lookup (guid : string) (w : World) :
  get_demo guid w =
    match demos w !! guid with
    | Some demo => (inr (mkResponse (DemoJson demo) 200 None), w)
    | None => (inl (APIException ResourceNotFound "Demo does not exist" guid), w)
    end.
Proof.
  unfold get_demo, demo_service.get_demo_by_guid. simpl. unfold_M.
  by destruct (demos w !! guid).
Qed.

Lemma delete_demo_lookup (guid : string) (w : World) :
  delete_demo guid w =
    match demos w !! guid with
    | Some demo =>
        (inr (mkResponse Empty 204 None),
         log_erp (RetractDemo guid) (set_demos (delete guid) w))
    | None => (inl (APIException ResourceNotFound "Demo does not exist" guid), w)
    end.
Proof.
  unfold delete_demo, demo_service.delete_demo_by_guid. simpl. unfold_M.
  by destruct (demos w !! guid).
Qed.

Lemma create_demo_user_dom (guid : string) (req : Request) (w : World) :
  dom (demos (create_demo_user guid req w).2) = dom (demos w).
Proof.
  unfold create_demo_user, user_service.create_user. unfold_M. simpl.
  destruct (py_get _ _) as [e|[rid|]]; simpl; try done.
  destruct (demos w !! guid) as [demo|] eqn:Hd; simpl; [|done].
  rewrite dom_insert_L. apply elem_of_dom_2 in Hd. clear -Hd. set_solver.
Qed.

Lemma produced_cons (ep : endpoint) (r : exn + Response)
    (h : list (endpoint * (exn + Response))) :
  produced ((ep, r) :: h) = produced [(ep, r)] ∪ produced h.
Proof.
  destruct ep, r as [e|[[] ? ?]]; simpl; set_solver.
Qed.

(** [setup_auth_from_request] never raises; it leaves in [g.auth] the
    decoded token, or [None]. *)
Lemma setup_auth_from_request_hook (env : Env) (req : Request) (w : World) :
  setup_auth_from_request env req w = (inr tt, set_g_auth (hook_auth env req) w).
Proof.
  unfold setup_auth_from_request, web_utils.get_token_from_request, hook_auth.
  destruct (req_token req) as [[d sg|s0]|]; [|reflexivity..].
  unfold_M. simpl. by case_decide; [rewrite bool_decide_eq_true_2|rewrite bool_decide_eq_false_2].
Qed.

(** One request, as the handler run after the hook and answered by the
    error handlers. *)
Lemma serve_handler (env : Env) (ep : endpoint) (req : Request) (w : World) :
  serve env ep req w =
    (answer (handler env ep req (set_g_auth (hook_auth env req) w)).1,
     (handler env ep req (set_g_auth (hook_auth env req) w)).2).
Proof.
  unfold serve. unfold_M. rewrite setup_auth_from_request_hook.
  change (set_g_auth (hook_auth env req) (set_g_auth Unset w))
    with (set_g_auth (hook_auth env req) w).
  destruct (handler env ep req (set_g_auth (hook_auth env req) w)) as [[e|resp] w1];
    simpl; [|done].
  by destruct (isinstance_BadRequest e).
Qed.

(** Serving one request adds to the store at most the guid that
    [create_demo] returned. *)
Lemma serve_dom (env : Env) (ep : endpoint) (req : Request) (w : World) :
  dom (demos (serve env ep req w).2) ⊆
    dom (demos w) ∪ produced [(ep, (serve env ep req w).1)].
Proof.
  rewrite serve_handler. cbn [fst snd].
  generalize (hook_auth env req). intros a.
  change (demos w) with (demos (set_g_auth a w)).
  generalize (set_g_auth a w). clear w. intros w0.
  assert (Hkeep : forall m : M Response, keeps_demos m ->
            dom (demos (m w0).2) ⊆ dom (demos w0) ∪ produced [(ep, answer (m w0).1)]).
  { intros m Hm. rewrite (Hm w0). apply union_subseteq_l. }
  destruct ep; simpl handler.
  - destruct (create_demo_store env w0) as [(demo & Hr & Hd & _)|(e & Hr & Hd)];
      rewrite Hr, Hd.
    + rewrite dom_insert_L. simpl. clear. set_solver.
    + apply union_subseteq_l.
  - apply (Hkeep _ (keeps_demos_get_demo guid)).
  - rewrite delete_demo_lookup.
    destruct (demos w0 !! guid); simpl; rewrite ?dom_delete_L; clear; set_solver.
  - apply (Hkeep _ (keeps_demos_get_demo_retailers env guid)).
  - rewrite (create_demo_user_dom guid req w0). apply union_subseteq_l.
  - apply (Hkeep _ (keeps_demos_demo_login env guid req)).
  - apply (Hkeep _ (keeps_demos_deauthenticate env tok req)).
  - apply (Hkeep _ (keeps_demos_load_admin_data env)).
Qed.

(** The sessions in the store were all returned by [create_demo]. *)
Lemma run_dom (env : Env) (calls : list (endpoint * Request)) (w : World) :
  dom (demos (run env calls w).2) ⊆ dom (demos w) ∪ produced (run env calls w).1.
Proof.
  revert w. induction calls as [|[ep req] rest IH]; intros w; [simpl; set_solver|].
  cbn [run].
  pose proof (serve_dom env ep req w) as Hs.
  destruct (serve env ep req w) as [r w1]. specialize (IH w1).
  destruct (run env rest w1) as [h w2]. cbn [fst snd] in *.
  rewrite produced_cons. clear -Hs IH. set_solver.
Qed.

(** C4.  For every session that [create_demo] returns, [get_demo] on its
    guid returns a session with exactly one user, and that user has
    exactly one role, named supplychainmanager. *)
Theorem create_demo_seed_user (env : Env) (w w' : World) (resp : Response) :
  create_demo env w = (inr resp, w') ->
  exists created,
    resp_body resp = DemoJson created /\
    exists retrieved u r,
      get_demo (demo_guid created) w' = (inr (mkResponse (DemoJson retrieved) 200 None), w') /\
      users retrieved = [u] /\
      roles u = [r] /\
      role_name r = "supplychainmanager".
Proof.
  intros Hrun.
  destruct (create_demo_store env w) as [(demo & Hr & _ & Hl & u & r & Hu & Hro & Hn)|(e & Hr & _)];
    rewrite Hrun in *; simpl in *; [|discriminate].
  injection Hr as ->. exists demo. split; [done|].
  exists demo, u, r. rewrite get_demo_lookup, Hl. by repeat split.
Qed.

Lemma create_demo_seed_user_witness :
  exists created,
    resp_body (mkResponse (DemoJson seeded_demo) 201 None) = DemoJson created /\
    exists retrieved u r,
      get_demo (demo_guid created) seeded_world =
        (inr (mkResponse (DemoJson retrieved) 200 None), seeded_world) /\
      users retrieved = [u] /\
      roles u = [r] /\
      role_name r = "supplychainmanager".
Proof.
  apply (create_demo_seed_user sample_env init_world seeded_world
           (mkResponse (DemoJson seeded_demo) 201 None)).
  vm_compute. reflexivity.
Defined.

(** C5.  In the world reached by any history of requests, a guid that
    [create_demo] has not returned in that history is unknown to
    [get_demo] and to [delete_demo]: both fail with ResourceNotFound.
    And once [delete_demo] has succeeded for a guid, deleting the same
    guid again fails with ResourceNotFound. *)
Theorem unknown_guid_not_found
    (env : Env) (calls : list (endpoint * Request)) (G : string)
    (w0 w1 : World) (resp : Response) :
  (G ∉ produced (run env calls init_world).1 ->
   exists m i,
     get_demo G (run env calls init_world).2 =
       (inl (APIException ResourceNotFound m i), (run env calls init_world).2) /\
     delete_demo G (run env calls init_world).2 =
       (inl (APIException ResourceNotFound m i), (run env calls init_world).2)) /\
  (delete_demo G w0 = (inr resp, w1) ->
   exists m i, delete_demo G w1 = (inl (APIException ResourceNotFound m i), w1)).
Proof.
  split.
  - intros Hnew.
    pose proof (run_dom env calls init_world) as Hdom.
    assert (Hnone : demos (run env calls init_world).2 !! G = None).
    { apply not_elem_of_dom. intros Hin. apply Hdom in Hin.
      apply elem_of_union in Hin as [Hin|Hin]; [|done].
      simpl in Hin. by rewrite dom_empty_L in Hin. }
    rewrite get_demo_lookup, delete_demo_lookup, Hnone. eauto.
  - rewrite delete_demo_lookup.
    destruct (demos w0 !! G) as [demo|]; [|discriminate].
    intros [= _ <-]. rewrite delete_demo_lookup. simpl.
    rewrite lookup_delete_eq. eauto.
Qed.

Lemma unknown_guid_not_found_witness :
  (exists m i,
     get_demo "ABC123" (run sample_env sample_history init_world).2 =
       (inl (APIException ResourceNotFound m i), (run sample_env sample_history init_world).2) /\
     delete_demo "ABC123" (run sample_env sample_history init_world).2 =
       (inl (APIException ResourceNotFound m i), (run sample_env sample_history init_world).2)) /\
  (exists m i,
     delete_demo "0" (delete_demo "0" seeded_world).2 =
       (inl (APIException ResourceNotFound m i), (delete_demo "0" seeded_world).2)).
Proof.
  split.
  - apply (proj1 (unknown_guid_not_found sample_env sample_history "ABC123"
                    init_world init_world (mkResponse Empty 204 None))).
    apply (bool_decide_unpack _). vm_compute. exact I.
  - apply (proj2 (unknown_guid_not_found sample_env [] "0"
                    seeded_world (delete_demo "0" seeded_world).2
                    (mkResponse Empty 204 None))).
    vm_compute. reflexivity.
Defined.

(** ** Tokens: login, authentication, logout *)

Section tokens.
Context (env : Env).

Lemma detokenize_well_signed (t : token) (w : World) :
  well_signed env t = true ->
  exists d sg, t = Jwt d sg /\ t = web_utils.tokenize env d /\
               web_utils.detokenize env t w = (inr d, w).
Proof.
  destruct t as [d sg|s]; simpl; [|discriminate].
  intros Hs%bool_decide_eq_true. subst sg.
  exists d, (sign env (secret env) d). repeat split.
  by rewrite decide_True.
Qed.

Lemma detokenize_not_well_signed (t : token) (w : World) :
  well_signed env t = false ->
  exists i, web_utils.detokenize env t w =
              (inl (APIException TokenInvalid "Error decoding token" i), w).
Proof.
  destruct t as [d sg|s]; simpl; [|eauto].
  intros Hs%bool_decide_eq_false. rewrite decide_False by done. eauto.
Qed.

Lemma detokenize_tokenize (d : auth_data) (w : World) :
  web_utils.detokenize env (web_utils.tokenize env d) w = (inr d, w).
Proof. unfold web_utils.tokenize. simpl. by rewrite decide_True. Qed.

(** [setup_auth_from_request] never raises; it leaves in [g.auth] the
    decoded token, or [None]. *)
Lemma setup_auth_from_request_spec (req : Request) (w : World) :
  setup_auth_from_request env req w =
    (inr tt,
     set_g_auth
       match req_token req with
       | Some (Jwt d sg) => if well_signed env (Jwt d sg) then AuthDict d else PyNone
       | _ => PyNone
       end w).
Proof.
  unfold setup_auth_from_request, web_utils.get_token_from_request.
  destruct (req_token req) as [t|]; [|reflexivity].
  unfold_M.
  destruct (well_signed env t) eqn:Hs.
  - destruct (detokenize_well_signed t w Hs) as (d & sg & -> & _ & ->).
    by rewrite Hs.
  - destruct (detokenize_not_well_signed t w Hs) as (i & ->).
    destruct t; [by rewrite Hs|done].
Qed.

End tokens.

Lemma demo_login_success
    (env : Env) (w : World) (guid : string) (uid : Z) (demo : Demo)
    (credential : string) (req : Request) :
  demos w !! guid = Some demo ->
  user_service.has_user uid demo = true ->
  erp_authenticate env guid uid = inr credential ->
  py_get (get_json req) "userId" = inr (Some (JNum uid)) ->
  let tok := web_utils.tokenize env
               (mkAuth guid uid credential (Some (clock w + timedelta_days 14))) in
  demo_login env guid req w =
    (inr (mkResponse (TokenJson tok) 200 (Some tok)),
     log_erp (AuthenticateUser guid uid) w).
Proof.
  intros Hd Hu Ha Hb. unfold demo_login.
  rewrite request_get_json_bind by (by eapply py_get_parsed).
  unfold user_service.login.
  rewrite Hb. simpl. unfold_M. simpl. rewrite Hd, Hu. unfold_M. by rewrite Ha.
Qed.

(** C6.  When the session exists, the user belongs to it and the back
    end accepts the login, [demo_login] returns a token; on any later
    request that carries this token, [setup_auth_from_request] accepts
    it (it leaves the decoded token in [g.auth]), and the decoded guid
    and user id are those given to [demo_login]. *)
Theorem login_token_round_trip
    (env : Env) (w : World) (guid : string) (uid : Z) (demo : Demo)
    (credential : string) (req : Request) :
  demos w !! guid = Some demo ->
  user_service.has_user uid demo = true ->
  erp_authenticate env guid uid = inr credential ->
  py_get (get_json req) "userId" = inr (Some (JNum uid)) ->
  exists tok w',
    demo_login env guid req w = (inr (mkResponse (TokenJson tok) 200 (Some tok)), w') /\
    forall (req' : Request) (w2 : World),
      req_token req' = Some tok ->
      exists d,
        web_utils.detokenize env tok w2 = (inr d, w2) /\
        setup_auth_from_request env req' w2 = (inr tt, set_g_auth (AuthDict d) w2) /\
        auth_guid d = guid /\
        auth_user_id d = uid.
Proof.
  intros Hd Hu Ha Hb.
  eexists _, _. split; [by eapply demo_login_success|].
  intros req' w2 Ht.
  eexists. split; [apply detokenize_tokenize|].
  rewrite setup_auth_from_request_spec, Ht. unfold web_utils.tokenize. simpl.
  by rewrite bool_decide_eq_true_2.
Qed.

Lemma login_token_round_trip_witness :
  exists tok w',
    demo_login sample_env "0" login_request seeded_world =
      (inr (mkResponse (TokenJson tok) 200 (Some tok)), w') /\
    forall (req' : Request) (w2 : World),
      req_token req' = Some tok ->
      exists d,
        web_utils.detokenize sample_env tok w2 = (inr d, w2) /\
        setup_auth_from_request sample_env req' w2 = (inr tt, set_g_auth (AuthDict d) w2) /\
        auth_guid d = "0" /\
        auth_user_id d = 2.
Proof.
  apply (login_token_round_trip sample_env seeded_world "0" 2 seeded_demo "credential-0"
           login_request).
  - vm_compute. reflexivity.
  - reflexivity.
  - reflexivity.
  - reflexivity.
Defined.

(** C7.  On a new request, [setup_auth_from_request] leaves [None] in
    [g.auth] exactly when the request has no token, or its token is
    malformed, or the signature of its token does not verify.  A token
    that decodes but is expired is kept in [g.auth] as decoded; the
    refusal comes when the protected [load_admin_data] is attempted,
    which then fails with AuthenticationFailed. *)
Theorem setup_auth_null_iff_undecodable (env : Env) (req : Request) (w : World) :
  (g_auth (setup_auth_from_request env req (set_g_auth Unset w)).2 = PyNone <->
   req_token req = None \/
   (exists s, req_token req = Some (Opaque s)) \/
   (exists d sg, req_token req = Some (Jwt d sg) /\ sg <> sign env (secret env) d)) /\
  (forall d,
     req_token req = Some (web_utils.tokenize env d) ->
     web_utils.expired (clock w) d = true ->
     g_auth (setup_auth_from_request env req (set_g_auth Unset w)).2 = AuthDict d /\
     exists m i w',
       serve env LoadAdminData req w = (inl (APIException AuthenticationFailed m i), w')).
Proof.
  split.
  - rewrite setup_auth_from_request_spec. simpl.
    destruct (req_token req) as [[d sg|s]|]; simpl.
    + case_bool_decide as Hs; split.
      * discriminate.
      * intros [?|[[s ?]|(d' & sg' & [= <- <-] & Hne)]]; done.
      * intros _. right. right. eauto.
      * done.
    + split; [eauto|done].
    + split; [eauto|done].
  - intros d Ht Hexp.
    assert (Hsetup : setup_auth_from_request env req (set_g_auth Unset w) =
                       (inr tt, set_g_auth (AuthDict d) w)).
    { rewrite setup_auth_from_request_spec, Ht. unfold web_utils.tokenize. simpl.
      by rewrite bool_decide_eq_true_2. }
    rewrite Hsetup. split; [done|].
    unfold serve. unfold_M. rewrite Hsetup. simpl handler.
    rewrite (load_admin_data_expired env (set_g_auth (AuthDict d) w) d) by done.
    simpl. eauto.
Qed.

Lemma setup_auth_null_iff_undecodable_witness :
  g_auth (setup_auth_from_request sample_env sample_request (set_g_auth Unset late_world)).2 =
    AuthDict sample_auth /\
  exists m i w',
    serve sample_env LoadAdminData sample_request late_world =
      (inl (APIException AuthenticationFailed m i), w').
Proof.
  apply (proj2 (setup_auth_null_iff_undecodable sample_env sample_request late_world)
           sample_auth); reflexivity.
Defined.

(** What [deauthenticate] does when the request carries a token. *)
Lemma deauthenticate_with_token
    (env : Env) (tok rt : token) (req : Request) (w : World) :
  req_token req = Some rt ->
  deauthenticate env tok req w =
    if decide (rt = tok) then
      match g_auth w with
      | AuthDict d =>
          (match erp_revoke env (loopback_token d) with
           | Some e => inl e
           | None => inr (mkResponse Empty 204 None)
           end,
           log_erp (RevokeCredential (loopback_token d)) w)
      | PyNone =>
          (inl (PythonError "TypeError" "'NoneType' object has no attribute '__getitem__'"), w)
      | Unset =>
          (inl (PythonError "AttributeError" "'_AppCtxGlobals' object has no attribute 'auth'"), w)
      end
    else (inr (mkResponse Empty 204 None), w).
Proof.
  intros Ht.
  unfold deauthenticate, web_utils.get_token_from_request, g_auth_loopback_token,
    web_utils.read_g_auth, user_service.logout.
  rewrite Ht. unfold_M.
  destruct (decide (rt = tok)) as [->|Hne].
  - rewrite decide_True by done. unfold_M.
    destruct (g_auth w) as [| |d]; try reflexivity.
    unfold_M. by destruct (erp_revoke env (loopback_token d)).
  - rewrite decide_False by congruence. reflexivity.
Qed.




(** C9, as the spec words it, fails: the token to log out is malformed
    (it does not decode), the request carries another, valid token, and
    [deauthenticate] ends normally with status 204 instead of failing
    with TokenInvalid. *)
Lemma deauthenticate_malformed_counterexample :
  web_utils.detokenize sample_env (Opaque "garbage") init_world =
    (inl (APIException TokenInvalid "Error decoding token" "malformed"), init_world) /\
  serve sample_env (Deauthenticate (Opaque "garbage")) sample_request init_world =
    (inr (mkResponse Empty 204 None), set_g_auth (AuthDict sample_auth) init_world).
Proof. split; vm_compute; reflexivity. Qed.

(** C9, amended.  [deauthenticate] does not decode the token to log
    out.  When that token is malformed or badly signed and the request
    carries a different token, the request ends normally with status
    204, nothing is revoked, and no TokenInvalid is raised. *)
Theorem deauthenticate_malformed_is_noop
    (env : Env) (tok rt : token) (req : Request) (w : World) :
  well_signed env tok = false ->
  req_token req = Some rt ->
  rt <> tok ->
  exists w',
    serve env (Deauthenticate tok) req w = (inr (mkResponse Empty 204 None), w') /\
    erp_log w' = erp_log w /\
    demos w' = demos w.
Proof.
  intros _ Ht Hne.
  unfold serve. unfold_M. rewrite setup_auth_from_request_spec. simpl handler.
  rewrite (deauthenticate_with_token env tok rt req _ Ht).
  rewrite decide_False by done. eauto.
Qed.

Lemma deauthenticate_malformed_is_noop_witness :
  exists w',
    serve sample_env (Deauthenticate (Opaque "garbage")) sample_request init_world =
      (inr (mkResponse Empty 204 None), w') /\
    erp_log w' = erp_log init_world /\
    demos w' = demos init_world.
Proof.
  apply (deauthenticate_malformed_is_noop sample_env (Opaque "garbage")
           (web_utils.tokenize sample_env sample_auth) sample_request init_world).
  - reflexivity.
  - reflexivity.
  - discriminate.
Defined.

Lemma demo_login_returns
    (env : Env) (guid : string) (req : Request) (w w' : World) (resp : Response) :
  demo_login env guid req w = (inr resp, w') -> req_body req <> Unparseable.
Proof.
  unfold demo_login, request_get_json. intros Hrun Hbad. rewrite Hbad in Hrun.
  discriminate Hrun.
Qed.

Lemma demo_login_unparseable (env : Env) (guid : string) (req : Request) (w : World) :
  req_body req = Unparseable ->
  exists m, demo_login env guid req w = (inl (BadRequest m), w).
Proof. intros Hbad. unfold demo_login. by apply request_get_json_unparseable. Qed.

(** C10, as the claim words it, fails: the body of this login request
    is not a JSON object (the request announces JSON and its body does
    not parse); [request.get_json()] does not yield [None] but raises
    BadRequest, and the request is answered by [bad_request_handler]
    with status 400, not with an APIError. *)
Lemma demo_login_unparseable_counterexample :
  req_body unparseable_request = Unparseable /\
  (exists m, request_get_json unparseable_request seeded_world =
               (inl (BadRequest m), seeded_world)) /\
  serve sample_env (DemoLogin "0") unparseable_request seeded_world =
    (inr (mkResponse (ErrorJson 400 "Bad request.") 400 None),
     set_g_auth PyNone seeded_world).
Proof. split; [reflexivity|]. split; [eexists|]; reflexivity. Qed.

(** C10, amended.  For a login request whose body is absent or is not a
    JSON object: when [request.get_json()] returns ([None], or a value
    that is not a dict), [demo_login] fails on [data.get('userId')] with
    an AttributeError, in the world it started in: before the check of
    the inputs, and without a call to the session store or to the back
    end; the error handler turns it into the generic APIError "Server
    Error", not UnprocessableEntity.  When [request.get_json()] raises
    BadRequest (the body does not parse), the request is answered with
    status 400 by [bad_request_handler].  In both cases the sessions and
    the log of calls to the back end are unchanged. *)
Theorem demo_login_without_json_object
    (env : Env) (guid : string) (req : Request) (w : World) :
  (forall kvs, get_json req <> Some (JObj kvs)) ->
  (req_body req <> Unparseable ->
   (exists m, demo_login env guid req w = (inl (PythonError "AttributeError" m), w)) /\
   (exists m w',
      serve env (DemoLogin guid) req w = (inl (APIException APIError "Server Error" m), w') /\
      demos w' = demos w /\
      issued w' = issued w /\
      erp_log w' = erp_log w)) /\
  (req_body req = Unparseable ->
   exists w',
     serve env (DemoLogin guid) req w =
       (inr (mkResponse (ErrorJson 400 "Bad request.") 400 None), w') /\
     demos w' = demos w /\
     issued w' = issued w /\
     erp_log w' = erp_log w).
Proof.
  intros Hbody. split.
  - intros Hparse.
    assert (Hlogin : forall w0, exists m,
               demo_login env guid req w0 = (inl (PythonError "AttributeError" m), w0)).
    { intros w0. unfold demo_login. rewrite request_get_json_bind by done.
      destruct (get_json req) as [[]|] eqn:Hj; simpl; unfold_M; eauto.
      by destruct (Hbody bindings). }
    split; [apply Hlogin|].
    rewrite serve_handler.
    change (handler env (DemoLogin guid) req) with (demo_login env guid req).
    destruct (Hlogin (set_g_auth (hook_auth env req) w)) as [m ->].
    simpl. eauto 10.
  - intros Hbad. rewrite serve_handler.
    change (handler env (DemoLogin guid) req) with (demo_login env guid req).
    destruct (demo_login_unparseable env guid req (set_g_auth (hook_auth env req) w) Hbad)
      as [m ->].
    simpl. eauto 10.
Qed.

Lemma demo_login_without_json_object_witness :
  ((exists m, demo_login sample_env "0" no_request seeded_world =
                (inl (PythonError "AttributeError" m), seeded_world)) /\
   (exists m w',
      serve sample_env (DemoLogin "0") no_request seeded_world =
        (inl (APIException APIError "Server Error" m), w') /\
      demos w' = demos seeded_world /\
      issued w' = issued seeded_world /\
      erp_log w' = erp_log seeded_world)) /\
  (exists w',
     serve sample_env (DemoLogin "0") unparseable_request seeded_world =
       (inr (mkResponse (ErrorJson 400 "Bad request.") 400 None), w') /\
     demos w' = demos seeded_world /\
     issued w' = issued seeded_world /\
     erp_log w' = erp_log seeded_world).
Proof.
  split.
  - apply (proj1 (demo_login_without_json_object sample_env "0" no_request seeded_world
                    ltac:(intros kvs; discriminate))).
    discriminate.
  - apply (proj2 (demo_login_without_json_object sample_env "0" unparseable_request
                    seeded_world ltac:(intros kvs; discriminate))).
    reflexivity.
Defined.

(** ** Further properties of the handlers *)

(** *** The error handler *)

(** X1.  Whatever the handler of a request raises is answered by one of
    the two error handlers of [create_app]: an HTTP exception with code
    400 by [bad_request_handler], with the fixed body and status 400;
    every other exception by [exception_handler], and what is sent then
    is always an APIException: the one raised, unchanged, or "Server
    Error" with the text of the exception when it is of another class. *)
Theorem serve_errors_are_api_exceptions
    (env : Env) (ep : endpoint) (req : Request) (w w0 : World) (e0 : exn) :
  handler env ep req (set_g_auth (hook_auth env req) w) = (inl e0, w0) ->
  (isinstance_BadRequest e0 = true /\
   serve env ep req w = (inr (mkResponse (ErrorJson 400 "Bad request.") 400 None), w0)) \/
  (isinstance_BadRequest e0 = false /\
   exists e,
     serve env ep req w = (inl e, w0) /\
     isinstance_APIException e = true /\
     (isinstance_APIException e0 = true -> e = e0) /\
     (isinstance_APIException e0 = false ->
      e = APIException APIError "Server Error" (str_exn e0))).
Proof.
  intros Hraise. rewrite serve_handler, Hraise. simpl.
  destruct e0 as [k m i|cls m|m]; simpl.
  - right. split; [done|]. eexists. by repeat split.
  - right. split; [done|]. eexists. by repeat split.
  - left. by split.
Qed.

Lemma serve_errors_are_api_exceptions_witness :
  (isinstance_BadRequest
     (PythonError "AttributeError" "'NoneType' object has no attribute 'get'") = true /\
   serve sample_env (DemoLogin "0") no_request init_world =
     (inr (mkResponse (ErrorJson 400 "Bad request.") 400 None),
      set_g_auth PyNone init_world)) \/
  (isinstance_BadRequest
     (PythonError "AttributeError" "'NoneType' object has no attribute 'get'") = false /\
   exists e,
     serve sample_env (DemoLogin "0") no_request init_world =
       (inl e, set_g_auth PyNone init_world) /\
     isinstance_APIException e = true /\
     (isinstance_APIException
        (PythonError "AttributeError" "'NoneType' object has no attribute 'get'") = true ->
      e = PythonError "AttributeError" "'NoneType' object has no attribute 'get'") /\
     (isinstance_APIException
        (PythonError "AttributeError" "'NoneType' object has no attribute 'get'") = false ->
      e = APIException APIError "Server Error"
            (str_exn (PythonError "AttributeError"
                                  "'NoneType' object has no attribute 'get'")))).
Proof.
  apply (serve_errors_are_api_exceptions sample_env (DemoLogin "0") no_request
           init_world (set_g_auth PyNone init_world)
           (PythonError "AttributeError" "'NoneType' object has no attribute 'get'")).
  reflexivity.
Defined.

(** *** Routes that do not look at the token *)





(** *** [setup_auth_from_request], whatever its helpers do *)

Lemma setup_auth_from_request_instance (env : Env) (req : Request) :
  setup_auth_from_request env req =
    setup_auth_from_request_with (web_utils.get_token_from_request req)
                                 (web_utils.detokenize env).
Proof. reflexivity. Qed.

(** X3.  Whatever the two helpers do: when reading the token or decoding
    it raises a TokenException or a ResourceDoesNotExistException, the
    hook swallows it and returns normally with [g.auth] set to [None];
    an exception of any other kind is passed on as raised, and [g.auth]
    is not assigned. *)
Theorem setup_auth_swallows_token_errors
    (get_token : M (option token)) (detok : token -> M auth_data)
    (w w1 : World) (e : exn) :
  get_token w = (inl e, w1) \/
  (exists t w0, get_token w = (inr (Some t), w0) /\ detok t w0 = (inl e, w1)) ->
  (isinstance_Token_or_NotFound e = true ->
   setup_auth_from_request_with get_token detok w = (inr tt, set_g_auth PyNone w1)) /\
  (isinstance_Token_or_NotFound e = false ->
   setup_auth_from_request_with get_token detok w = (inl e, w1)).
Proof.
  intros Hraise. unfold setup_auth_from_request_with. unfold_M.
  destruct Hraise as [->|(t & w0 & -> & ->)]; split; intros ->; reflexivity.
Qed.

Lemma setup_auth_swallows_token_errors_witness :
  setup_auth_from_request_with
    (web_utils.get_token_from_request (mkRequest (Some (Opaque "garbage")) None))
    (web_utils.detokenize sample_env) init_world =
    (inr tt, set_g_auth PyNone init_world) /\
  setup_auth_from_request_with
    (raise (PythonError "KeyError" "Authorization")) (web_utils.detokenize sample_env)
    init_world =
    (inl (PythonError "KeyError" "Authorization"), init_world).
Proof.
  split.
  - apply (proj1 (setup_auth_swallows_token_errors
                    (web_utils.get_token_from_request (mkRequest (Some (Opaque "garbage")) None))
                    (web_utils.detokenize sample_env) init_world init_world
                    (APIException TokenInvalid "Error decoding token" "malformed")
                    (or_intror (ex_intro _ (Opaque "garbage")
                                  (ex_intro _ init_world (conj eq_refl eq_refl)))))).
    reflexivity.
  - apply (proj2 (setup_auth_swallows_token_errors
                    (raise (PythonError "KeyError" "Authorization"))
                    (web_utils.detokenize sample_env) init_world init_world
                    (PythonError "KeyError" "Authorization") (or_introl eq_refl))).
    reflexivity.
Defined.

(** X4.  When the helper that reads the token returns [None] instead of
    raising, the hook assigns nothing to [g.auth] and does not call the
    decoder: it returns normally in the world the helper left, where
    [g.auth] is in the state it was in (on a new request: not set, and
    in particular not [None]). *)
Theorem setup_auth_without_token_assigns_nothing
    (get_token : M (option token)) (detok : token -> M auth_data) (w w1 : World) :
  get_token w = (inr None, w1) ->
  setup_auth_from_request_with get_token detok w = (inr tt, w1) /\
  g_auth (setup_auth_from_request_with get_token detok w).2 = g_auth w1.
Proof.
  intros Hnone.
  assert (Hsetup : setup_auth_from_request_with get_token detok w = (inr tt, w1))
    by (unfold setup_auth_from_request_with; unfold_M; by rewrite Hnone).
  by rewrite Hsetup.
Qed.

Lemma setup_auth_without_token_assigns_nothing_witness :
  setup_auth_from_request_with (mret None)
    (fun _ => raise (PythonError "AssertionError" "decoder called")) init_world =
    (inr tt, init_world) /\
  g_auth (setup_auth_from_request_with (mret None)
            (fun _ => raise (PythonError "AssertionError" "decoder called")) init_world).2 =
    g_auth init_world.
Proof.
  apply (setup_auth_without_token_assigns_nothing (mret None)
           (fun _ => raise (PythonError "AssertionError" "decoder called"))
           init_world init_world).
  reflexivity.
Defined.

(** *** The admin view: what failure leaves behind *)

(** X5.  When one of the three calls fails, [load_admin_data] raises
    from the [except] branch and never reaches [pool.close()] and
    [pool.join()]: the pool of workers it created is still alive when it
    returns.  The sessions and the log of back-end calls are untouched. *)
Theorem load_admin_data_failure_leaves_pool
    (env : Env) (w : World) (d : auth_data) (s : service) (e : exn) :
  g_auth w = AuthDict d ->
  web_utils.expired (clock w) d = false ->
  outcome (erp_read env s (loopback_token d)) = inl e ->
  live_pools (load_admin_data env w).2 = S (live_pools w) /\
  demos (load_admin_data env w).2 = demos w /\
  erp_log (load_admin_data env w).2 = erp_log w.
Proof.
  intros Hg Hexp Hfail.
  rewrite (load_admin_data_logged_in env w d Hg Hexp).
  assert (Hin : erp_read env s (loopback_token d) ∈ admin_replies env (loopback_token d))
    by (apply admin_replies_elem; eauto).
  destruct (first_failure_is_Some _ _ _ Hin Hfail) as (t & e' & ->).
  by repeat split.
Qed.

Lemma load_admin_data_failure_leaves_pool_witness :
  live_pools (load_admin_data failing_env authed_world).2 = S (live_pools authed_world) /\
  demos (load_admin_data failing_env authed_world).2 = demos authed_world /\
  erp_log (load_admin_data failing_env authed_world).2 = erp_log authed_world.
Proof.
  apply (load_admin_data_failure_leaves_pool failing_env authed_world sample_auth
           get_distribution_centers
           (APIException AuthenticationFailed "Invalid credential" ""));
    reflexivity.
Defined.

(** X6.  The decoding of the results is outside the [try]: when all
    three calls succeed but one result is not a JSON document,
    [load_admin_data] fails with the ValueError of [json.loads], after
    the pool has been closed and joined; the error handler answers with
    the generic "Server Error", not with "Error retrieving admin data
    view". *)
Theorem load_admin_data_undecodable_result
    (env : Env) (w : World) (d : auth_data) (s : service) (r : string) :
  g_auth w = AuthDict d ->
  web_utils.expired (clock w) d = false ->
  (forall s', exists r', outcome (erp_read env s' (loopback_token d)) = inr r') ->
  outcome (erp_read env s (loopback_token d)) = inr r ->
  json_loads env r = None ->
  exists m w',
    load_admin_data env w = (inl (PythonError "ValueError" m), w') /\
    live_pools w' = live_pools w /\
    exception_handler (PythonError "ValueError" m) = APIException APIError "Server Error" m.
Proof.
  intros Hg Hexp Hall Hs Hbad.
  rewrite (load_admin_data_logged_in env w d Hg Hexp).
  destruct (first_failure (admin_replies env (loopback_token d))) as [[t e]|] eqn:Hf.
  { destruct (first_failure_Some _ _ _ Hf) as (r' & Hin & Ho & _).
    apply admin_replies_elem in Hin as [s' ->].
    destruct (Hall s') as [r'' Hr'']. congruence. }
  destruct (admin_results_all env _ Hf) as (r0 & r1 & r2 & H0 & H1 & H2 & ->).
  cbv zeta. unfold index, loads. simpl lookup. unfold_M.
  assert (Hcases : r = r0 \/ r = r1 \/ r = r2)
    by (destruct s; [left|right; left|right; right]; congruence).
  destruct (json_loads env r0) as [v0|] eqn:L0; [|eauto 10].
  destruct (json_loads env r1) as [v1|] eqn:L1; [|eauto 10].
  destruct (json_loads env r2) as [v2|] eqn:L2; [|eauto 10].
  destruct Hcases as [->|[->| ->]]; congruence.
Qed.

Lemma load_admin_data_undecodable_result_witness :
  exists m w',
    load_admin_data garbled_env authed_world = (inl (PythonError "ValueError" m), w') /\
    live_pools w' = live_pools authed_world /\
    exception_handler (PythonError "ValueError" m) = APIException APIError "Server Error" m.
Proof.
  apply (load_admin_data_undecodable_result garbled_env authed_world sample_auth
           get_retailers "<html>").
  - reflexivity.
  - reflexivity.
  - intros []; eexists; reflexivity.
  - reflexivity.
  - reflexivity.
Defined.

(** *** Routes that only read *)

Lemma keeps_demos_handler (env : Env) (ep : endpoint) (req : Request) :
  changes_sessions ep = false -> keeps_demos (handler env ep req).
Proof.
  destruct ep; try discriminate; intros _; simpl handler.
  - apply keeps_demos_get_demo.
  - apply keeps_demos_get_demo_retailers.
  - apply keeps_demos_demo_login.
  - apply keeps_demos_deauthenticate.
  - apply keeps_demos_load_admin_data.
Qed.

(** X7.  Looking up a demo or its retailers, logging in, logging out and
    loading the admin view never create, change or delete a session,
    whether the request succeeds or fails. *)
Theorem reading_routes_keep_sessions
    (env : Env) (ep : endpoint) (req : Request) (w : World) :
  changes_sessions ep = false ->
  demos (serve env ep req w).2 = demos w.
Proof.
  intros Hep. rewrite serve_handler. cbn [snd].
  by rewrite (keeps_demos_handler env ep req Hep).
Qed.

Lemma reading_routes_keep_sessions_witness :
  demos (serve sample_env (DemoLogin "0") login_request seeded_world).2 = demos seeded_world.
Proof.
  apply (reading_routes_keep_sessions sample_env (DemoLogin "0") login_request seeded_world).
  reflexivity.
Defined.

(** *** Logout *)

(** X8.  A logout whose token is the very token the request carries,
    when that token does not decode: [g.auth] is [None], the lookup
    [g.auth['loopback_token']] raises a TypeError before
    [user_service.logout] is called, nothing is revoked, and the caller
    gets the generic "Server Error". *)
Theorem deauthenticate_same_undecodable_token
    (env : Env) (tok : token) (req : Request) (w : World) :
  req_token req = Some tok ->
  well_signed env tok = false ->
  serve env (Deauthenticate tok) req w =
    (inl (APIException APIError "Server Error"
                       "'NoneType' object has no attribute '__getitem__'"),
     set_g_auth PyNone w) /\
  erp_log (serve env (Deauthenticate tok) req w).2 = erp_log w.
Proof.
  intros Ht Hs.
  assert (Hserve : serve env (Deauthenticate tok) req w =
            (inl (APIException APIError "Server Error"
                               "'NoneType' object has no attribute '__getitem__'"),
             set_g_auth PyNone w)).
  { unfold serve. unfold_M. rewrite setup_auth_from_request_spec.
    change (handler env (Deauthenticate tok) req) with (deauthenticate env tok req).
    rewrite (deauthenticate_with_token env tok tok req _ Ht), Ht.
    rewrite decide_True by done.
    destruct tok as [d sg|s]; [rewrite Hs|]; reflexivity. }
  by rewrite Hserve.
Qed.

Lemma deauthenticate_same_undecodable_token_witness :
  serve sample_env (Deauthenticate (Opaque "garbage"))
        (mkRequest (Some (Opaque "garbage")) None) init_world =
    (inl (APIException APIError "Server Error"
                       "'NoneType' object has no attribute '__getitem__'"),
     set_g_auth PyNone init_world) /\
  erp_log (serve sample_env (Deauthenticate (Opaque "garbage"))
                 (mkRequest (Some (Opaque "garbage")) None) init_world).2 =
    erp_log init_world.
Proof.
  apply (deauthenticate_same_undecodable_token sample_env (Opaque "garbage")
           (mkRequest (Some (Opaque "garbage")) None) init_world); reflexivity.
Defined.

(** *** Login *)

(** X9.  A login whose JSON object has no [userId], or has it [null], is
    refused by the check of the inputs with UnprocessableEntity before
    [user_service.login] is called: the world is unchanged, and it makes
    no difference whether the demo exists. *)
Theorem demo_login_missing_user_id
    (env : Env) (guid : string) (req : Request) (w : World) (kvs : list (string * json)) :
  get_json req = Some (JObj kvs) ->
  assoc_last "userId" kvs = None \/ assoc_last "userId" kvs = Some JNull ->
  exists m i, demo_login env guid req w = (inl (APIException UnprocessableEntity m i), w).
Proof.
  intros Hbody Hkey. unfold demo_login.
  rewrite request_get_json_bind by (by eapply get_json_parsed).
  unfold py_get. rewrite Hbody.
  destruct Hkey as [->| ->]; simpl; unfold_M; simpl; eauto.
Qed.

Lemma demo_login_missing_user_id_witness :
  exists m i,
    demo_login sample_env "no such demo" (mkRequest None (Some (JObj [("user", JNum 2)])))
               seeded_world =
      (inl (APIException UnprocessableEntity m i), seeded_world).
Proof.
  apply (demo_login_missing_user_id sample_env "no such demo"
           (mkRequest None (Some (JObj [("user", JNum 2)]))) seeded_world
           [("user", JNum 2)]).
  - reflexivity.
  - left. reflexivity.
Defined.

(** X10.  Every successful [demo_login] answers with status 200 and a
    token that is also set as the cookie; the token encodes the guid of
    the route, the credential the back end gave for this login, and an
    expiry exactly 14 days after the time of the login.  The sessions
    are unchanged and the only call logged is that login. *)
Theorem demo_login_token_and_cookie
    (env : Env) (guid : string) (req : Request) (w w' : World) (resp : Response) :
  demo_login env guid req w = (inr resp, w') ->
  exists d uid,
    resp = mkResponse (TokenJson (web_utils.tokenize env d)) 200
                      (Some (web_utils.tokenize env d)) /\
    auth_guid d = guid /\
    auth_user_id d = uid /\
    erp_authenticate env guid uid = inr (loopback_token d) /\
    exp d = Some (clock w + 14 * 86400) /\
    demos w' = demos w /\
    erp_log w' = (erp_log w ++ [AuthenticateUser guid uid])%list.
Proof.
  intros Hrun. pose proof (demo_login_returns _ _ _ _ _ _ Hrun) as Hparse. revert Hrun.
  unfold demo_login. rewrite request_get_json_bind by done.
  unfold user_service.login. unfold_M. simpl.
  destruct (py_get _ _) as [e|[u|]]; simpl; try discriminate.
  destruct (demos w !! guid) as [demo|]; [|discriminate].
  destruct u; try discriminate.
  destruct (user_service.has_user n demo); [|discriminate].
  unfold_M.
  destruct (erp_authenticate env guid n) as [e|credential] eqn:Ha; [discriminate|].
  intros [= <- <-]. eexists _, n. simpl. by repeat split.
Qed.

Lemma demo_login_token_and_cookie_witness :
  exists d uid,
    mkResponse (TokenJson (web_utils.tokenize sample_env sample_auth)) 200
               (Some (web_utils.tokenize sample_env sample_auth)) =
      mkResponse (TokenJson (web_utils.tokenize sample_env d)) 200
                 (Some (web_utils.tokenize sample_env d)) /\
    auth_guid d = "0" /\
    auth_user_id d = uid /\
    erp_authenticate sample_env "0" uid = inr (loopback_token d) /\
    exp d = Some (clock seeded_world + 14 * 86400) /\
    demos (log_erp (AuthenticateUser "0" 2) seeded_world) = demos seeded_world /\
    erp_log (log_erp (AuthenticateUser "0" 2) seeded_world) =
      (erp_log seeded_world ++ [AuthenticateUser "0" uid])%list.
Proof.
  apply (demo_login_token_and_cookie sample_env "0" login_request seeded_world
           (log_erp (AuthenticateUser "0" 2) seeded_world)
           (mkResponse (TokenJson (web_utils.tokenize sample_env sample_auth)) 200
                       (Some (web_utils.tokenize sample_env sample_auth)))).
  vm_compute. reflexivity.
Defined.

(** *** Status codes and the cookie *)

Lemma demo_login_token_and_cookie_shape
    (env : Env) (guid : string) (req : Request) (w w' : World) (resp : Response) :
  demo_login env guid req w = (inr resp, w') ->
  exists tok, resp = mkResponse (TokenJson tok) 200 (Some tok).
Proof.
  intros Hrun. pose proof (demo_login_returns _ _ _ _ _ _ Hrun) as Hparse. revert Hrun.
  unfold demo_login. rewrite request_get_json_bind by done.
  unfold user_service.login. unfold_M. simpl.
  destruct (py_get _ _) as [e|[u|]]; simpl; try discriminate.
  destruct (demos w !! guid) as [demo|]; [|discriminate].
  destruct u; try discriminate.
  destruct (user_service.has_user n demo); [|discriminate].
  unfold_M.
  destruct (erp_authenticate env guid n) as [e|credential]; [discriminate|].
  intros [= <- <-]. eauto.
Qed.

Lemma handler_success_shape
    (env : Env) (ep : endpoint) (req : Request) (w w' : World) (resp : Response) :
  handler env ep req w = (inr resp, w') ->
  status resp = success_status ep /\
  (answers_empty ep = true -> resp_body resp = Empty) /\
  match ep with
  | DemoLogin _ => exists tok, resp_body resp = TokenJson tok /\ cookie resp = Some tok
  | _ => cookie resp = None
  end.
Proof.
  destruct ep; simpl handler.
  - destruct (create_demo_store env w) as [(demo & Hr & _)|(e & Hr & _)];
      intros Hrun; rewrite Hrun in Hr; simpl in Hr; [|discriminate].
    injection Hr as ->. by repeat split.
  - rewrite get_demo_lookup. destruct (demos w !! guid); [|discriminate].
    intros [= <- <-]. by repeat split.
  - rewrite delete_demo_lookup. destruct (demos w !! guid); [|discriminate].
    intros [= <- <-]. by repeat split.
  - unfold get_demo_retailers, demo_service.get_demo_retailers. simpl. unfold_M.
    destruct (demos w !! guid); [|discriminate].
    destruct (outcome _); [discriminate|].
    intros [= <- <-]. by repeat split.
  - unfold create_demo_user, user_service.create_user. unfold_M. simpl.
    destruct (py_get _ _) as [e|[rid|]]; simpl; try discriminate.
    destruct (demos w !! guid); [|discriminate].
    intros [= <- <-]. by repeat split.
  - intros Hrun.
    destruct (demo_login_token_and_cookie_shape env guid req w w' resp Hrun) as (tok & ->).
    repeat split; [discriminate|]. by exists tok.
  - unfold deauthenticate, g_auth_loopback_token, web_utils.read_g_auth,
      web_utils.get_token_from_request, user_service.logout.
    intros Hrun.
    assert (resp = mkResponse Empty 204 None) as ->.
    { revert Hrun. unfold_M.
      repeat match goal with
             | |- context [match ?x with _ => _ end] => destruct x
             end; unfold_M; intros [= <-]; try done. }
    by repeat split.
  - intros Hrun.
    destruct (g_auth w) as [| |d] eqn:Hg.
    + destruct (load_admin_data_unset env w Hg) as [m Hm]. congruence.
    + rewrite (load_admin_data_anonymous env w Hg) in Hrun. discriminate.
    + destruct (load_admin_data_success env _ _ _ _ Hg Hrun)
        as (r0 & r1 & r2 & v0 & v1 & v2 & _ & _ & _ & _ & _ & _ & -> & _).
      by repeat split.
Qed.

(** X11.  A response that [serve] returns is the 400 of
    [bad_request_handler], or it is the success of its route and carries
    the status of that route: 201 for the two routes that create, 204
    with an empty body for deleting a demo and for logout, 200 for the
    others.  The login always sets a cookie, which is the token of its
    body; no other route sets a cookie. *)
Theorem success_status_and_cookie
    (env : Env) (ep : endpoint) (req : Request) (w w' : World) (resp : Response) :
  serve env ep req w = (inr resp, w') ->
  resp = mkResponse (ErrorJson 400 "Bad request.") 400 None \/
  (status resp = success_status ep /\
   (answers_empty ep = true -> resp_body resp = Empty) /\
   match ep with
   | DemoLogin _ => exists tok, resp_body resp = TokenJson tok /\ cookie resp = Some tok
   | _ => cookie resp = None
   end).
Proof.
  rewrite serve_handler.
  destruct (handler env ep req (set_g_auth (hook_auth env req) w)) as [[e|resp0] w1] eqn:Hrun;
    simpl.
  - destruct (isinstance_BadRequest e); [|discriminate]. intros [= <- <-]. by left.
  - intros [= <- <-]. right. by eapply handler_success_shape.
Qed.

Lemma success_status_and_cookie_witness :
  mkResponse (TokenJson (web_utils.tokenize sample_env sample_auth)) 200
             (Some (web_utils.tokenize sample_env sample_auth)) =
    mkResponse (ErrorJson 400 "Bad request.") 400 None \/
  (status (mkResponse (TokenJson (web_utils.tokenize sample_env sample_auth)) 200
                      (Some (web_utils.tokenize sample_env sample_auth))) =
     success_status (DemoLogin "0") /\
   (answers_empty (DemoLogin "0") = true ->
    resp_body (mkResponse (TokenJson (web_utils.tokenize sample_env sample_auth)) 200
                          (Some (web_utils.tokenize sample_env sample_auth))) = Empty) /\
   exists tok,
     resp_body (mkResponse (TokenJson (web_utils.tokenize sample_env sample_auth)) 200
                           (Some (web_utils.tokenize sample_env sample_auth))) =
       TokenJson tok /\
     cookie (mkResponse (TokenJson (web_utils.tokenize sample_env sample_auth)) 200
                        (Some (web_utils.tokenize sample_env sample_auth))) = Some tok).
Proof.
  apply (success_status_and_cookie sample_env (DemoLogin "0") login_request seeded_world
           (serve sample_env (DemoLogin "0") login_request seeded_world).2
           (mkResponse (TokenJson (web_utils.tokenize sample_env sample_auth)) 200
                       (Some (web_utils.tokenize sample_env sample_auth)))).
  vm_compute. reflexivity.
Defined.

(** *** Creating a user *)

(** What [create_demo_user] does to the store: nothing, or it appends
    one user without roles to the session of the guid. *)
Lemma create_demo_user_store (guid : string) (req : Request) (w : World) :
  demos (create_demo_user guid req w).2 = demos w \/
  exists demo u,
    demos w !! guid = Some demo /\
    roles u = [] /\
    (create_demo_user guid req w).1 = inr (mkResponse (UserJson u) 201 None) /\
    demos (create_demo_user guid req w).2 = <[guid := user_service.add_user u demo]> (demos w).
Proof.
  unfold create_demo_user, user_service.create_user. unfold_M. simpl.
  destruct (py_get _ _) as [e|[rid|]]; simpl; try by left.
  destruct (demos w !! guid) as [demo|] eqn:Hd; [|by left].
  right. eexists demo, _. simpl. by repeat split.
Qed.

(** X12.  Creating a user without a [retailerId] in the JSON object (or
    with [null]) is refused with UnprocessableEntity by the check of the
    inputs, before the user service is called: no session is touched,
    and it makes no difference whether the demo exists. *)
Theorem create_demo_user_missing_retailer
    (guid : string) (req : Request) (w : World) (kvs : list (string * json)) :
  web_utils.get_json_data req = Some (JObj kvs) ->
  assoc_last "retailerId" kvs = None \/ assoc_last "retailerId" kvs = Some JNull ->
  exists m i, create_demo_user guid req w = (inl (APIException UnprocessableEntity m i), w).
Proof.
  intros Hbody Hkey. unfold create_demo_user, py_get. rewrite Hbody.
  destruct Hkey as [->| ->]; simpl; unfold_M; simpl; eauto.
Qed.

Lemma create_demo_user_missing_retailer_witness :
  exists m i,
    create_demo_user "no such demo" (mkRequest None (Some (JObj []))) seeded_world =
      (inl (APIException UnprocessableEntity m i), seeded_world).
Proof.
  apply (create_demo_user_missing_retailer "no such demo" (mkRequest None (Some (JObj [])))
           seeded_world []).
  - reflexivity.
  - left. reflexivity.
Defined.

(** *** The life of a session *)

(** X13.  What [create_demo] returns is what [get_demo] then finds under
    its guid: the same demo, field for field; the sessions under other
    guids are as they were. *)
Theorem get_demo_after_create_demo (env : Env) (w w' : World) (resp : Response) :
  create_demo env w = (inr resp, w') ->
  exists demo,
    resp = mkResponse (DemoJson demo) 201 None /\
    get_demo (demo_guid demo) w' = (inr (mkResponse (DemoJson demo) 200 None), w') /\
    forall guid, guid <> demo_guid demo -> get_demo guid w' = ((get_demo guid w).1, w').
Proof.
  intros Hrun.
  destruct (create_demo_store env w) as [(demo & Hr & Hd & Hl & _)|(e & Hr & _)];
    rewrite Hrun in *; simpl in *; [|discriminate].
  injection Hr as ->. exists demo. split; [done|]. split.
  - by rewrite get_demo_lookup, Hl.
  - intros guid Hne. rewrite !get_demo_lookup, Hd, lookup_insert_ne by done.
    by destruct (demos w !! guid).
Qed.

Lemma get_demo_after_create_demo_witness :
  exists demo,
    mkResponse (DemoJson seeded_demo) 201 None = mkResponse (DemoJson demo) 201 None /\
    get_demo (demo_guid demo) seeded_world =
      (inr (mkResponse (DemoJson demo) 200 None), seeded_world) /\
    forall guid, guid <> demo_guid demo ->
                 get_demo guid seeded_world = ((get_demo guid init_world).1, seeded_world).
Proof.
  apply (get_demo_after_create_demo sample_env init_world seeded_world
           (mkResponse (DemoJson seeded_demo) 201 None)).
  vm_compute. reflexivity.
Defined.

(** X14.  A successful [delete_demo] answers 204 with an empty body,
    tells the back end to retract that demo and nothing else, and
    removes exactly that session: [get_demo] on its guid then fails with
    ResourceNotFound, and on every other guid answers as before. *)
Theorem delete_demo_removes_one (guid : string) (w w' : World) (resp : Response) :
  delete_demo guid w = (inr resp, w') ->
  resp = mkResponse Empty 204 None /\
  erp_log w' = (erp_log w ++ [RetractDemo guid])%list /\
  (exists m i, get_demo guid w' = (inl (APIException ResourceNotFound m i), w')) /\
  forall other, other <> guid -> get_demo other w' = ((get_demo other w).1, w').
Proof.
  rewrite delete_demo_lookup.
  destruct (demos w !! guid) as [demo|]; [|discriminate].
  intros [= <- <-]. repeat split.
  - rewrite get_demo_lookup. simpl. rewrite lookup_delete_eq. eauto.
  - intros other Hne. rewrite !get_demo_lookup. simpl.
    rewrite lookup_delete_ne by done. by destruct (demos w !! other).
Qed.

Lemma delete_demo_removes_one_witness :
  mkResponse Empty 204 None = mkResponse Empty 204 None /\
  erp_log (delete_demo "0" seeded_world).2 = (erp_log seeded_world ++ [RetractDemo "0"])%list /\
  (exists m i,
     get_demo "0" (delete_demo "0" seeded_world).2 =
       (inl (APIException ResourceNotFound m i), (delete_demo "0" seeded_world).2)) /\
  forall other, other <> "0" ->
    get_demo other (delete_demo "0" seeded_world).2 =
      ((get_demo other seeded_world).1, (delete_demo "0" seeded_world).2).
Proof.
  apply (delete_demo_removes_one "0" seeded_world (delete_demo "0" seeded_world).2
           (mkResponse Empty 204 None)).
  vm_compute. reflexivity.
Defined.

(** *** An invariant of the store over any history *)

Lemma serve_world (env : Env) (ep : endpoint) (req : Request) (w : World) :
  exists a, (serve env ep req w).2 = (handler env ep req (set_g_auth a w)).2.
Proof.
  exists (hook_auth env req). by rewrite serve_handler.
Qed.

Lemma seeded_add_user (guid : string) (demo : Demo) (u : User) :
  seeded guid demo -> seeded guid (user_service.add_user u demo).
Proof.
  intros [Hg (u0 & others & r & Hu & Hr & Hn)]. split; [done|].
  exists u0, (others ++ [u])%list, r. simpl. by rewrite Hu.
Qed.

Lemma store_seeded_insert (guid : string) (demo : Demo) (m : gmap string Demo) (w w' : World) :
  store_seeded w -> seeded guid demo -> demos w' = <[guid := demo]> (demos w) ->
  store_seeded w'.
Proof.
  intros Hw Hd Hdemos g d. rewrite Hdemos, lookup_insert.
  case_decide as Heq; [intros [= <-]; by subst g|apply Hw].
Qed.

Lemma serve_store_seeded (env : Env) (ep : endpoint) (req : Request) (w : World) :
  store_seeded w -> store_seeded (serve env ep req w).2.
Proof.
  intros Hw. destruct (serve_world env ep req w) as [a ->].
  assert (Hw0 : store_seeded (set_g_auth a w)) by exact Hw.
  revert Hw0. generalize (set_g_auth a w). clear Hw. intros w0 Hw0.
  destruct (changes_sessions ep) eqn:Hep.
  - destruct ep; try discriminate; simpl handler.
    + destruct (create_demo_store env w0)
        as [(demo & _ & Hd & _ & u & r & Hu & Hr & Hn)|(e & _ & Hd)].
      * eapply (store_seeded_insert (demo_guid demo) demo (demos w0)); [done| |done].
        split; [done|]. by exists u, [], r.
      * intros g0 d0. rewrite Hd. apply Hw0.
    + rewrite delete_demo_lookup. destruct (demos w0 !! guid); [|done].
      intros g0 d0. simpl. rewrite lookup_delete. case_decide; [done|apply Hw0].
    + destruct (create_demo_user_store guid req w0) as [Hd|(demo & u & Hl & _ & _ & Hd)].
      * intros g0 d0. rewrite Hd. apply Hw0.
      * eapply (store_seeded_insert guid _ (demos w0)); [done| |done].
        apply seeded_add_user. by apply Hw0.
  - intros g0 d0. rewrite (keeps_demos_handler env ep req Hep w0). apply Hw0.
Qed.

Lemma run_store_seeded (env : Env) (calls : list (endpoint * Request)) (w : World) :
  store_seeded w -> store_seeded (run env calls w).2.
Proof.
  revert w. induction calls as [|[ep req] rest IH]; intros w Hw; [done|].
  cbn [run]. pose proof (serve_store_seeded env ep req w Hw) as Hs.
  destruct (serve env ep req w) as [r w1]. specialize (IH w1 Hs).
  by destruct (run env rest w1) as [h w2].
Qed.

(** X15.  After any history of requests, every demo that [get_demo]
    returns carries the guid it was asked for, and its first user is
    still the seed user with the single role supplychainmanager: users
    created later come after it. *)
Theorem get_demo_always_seeded
    (env : Env) (calls : list (endpoint * Request)) (guid : string)
    (resp : Response) (w' : World) :
  get_demo guid (run env calls init_world).2 = (inr resp, w') ->
  exists demo u others r,
    resp = mkResponse (DemoJson demo) 200 None /\
    demo_guid demo = guid /\
    users demo = u :: others /\
    roles u = [r] /\
    role_name r = "supplychainmanager".
Proof.
  assert (Hinv : store_seeded (run env calls init_world).2).
  { apply run_store_seeded. intros g d. simpl. by rewrite lookup_empty. }
  rewrite get_demo_lookup.
  destruct (demos (run env calls init_world).2 !! guid) as [demo|] eqn:Hl; [|discriminate].
  intros [= <- <-].
  destruct (Hinv guid demo Hl) as [Hg (u & others & r & Hu & Hr & Hn)].
  by exists demo, u, others, r.
Qed.

Lemma get_demo_always_seeded_witness :
  exists demo u others r,
    mkResponse (DemoJson demo_with_two_users) 200 None = mkResponse (DemoJson demo) 200 None /\
    demo_guid demo = "0" /\
    users demo = u :: others /\
    roles u = [r] /\
    role_name r = "supplychainmanager".
Proof.
  apply (get_demo_always_seeded sample_env user_history "0"
           (mkResponse (DemoJson demo_with_two_users) 200 None)
           (run sample_env user_history init_world).2).
  vm_compute. reflexivity.
Defined.

(** *** From login to the admin view *)




